(** * make_video.py: PDF to MP4 conversion

    A shallow embedding of [src/figures/make_video.py] (class
    [PDFToMP4Converter] and [main]) and the properties of its
    specification.

    The script is a linear pipeline over three libraries (PyMuPDF, Pillow,
    OpenCV).  The Python code itself (arithmetic, control flow, exceptions,
    default arguments, pathlib) is embedded as executable definitions; what
    the libraries and the file system answer is a [Host] record the
    definitions are parameterised by. *)

From Stdlib Require Import ZArith QArith Qround List String Ascii Bool Lia.
From Stdlib Require Import SpecFloat.
Import ListNotations.

Local Open Scope Z_scope.

(** ** Python numbers

    [fps] and [duration_per_page] are Python numbers: [int]s (unbounded) or
    [float]s (IEEE 754 binary64).  The command line yields an [int] for
    [--fps] and [--dpi] and a [float] for [--duration]; the class default
    [duration_per_page=3] is an [int]. *)

Module Py.

Definition prec : Z := 53.
Definition emax : Z := 1024.

Inductive num : Type :=
| PyInt (z : Z)
| PyFloat (f : spec_float).

(** Exceptions of class [Exception] the script can meet: the three it
    raises itself (their texts are in the comments), those of [int] and of
    the conversion of an [int] to [float], and those of the libraries. *)
Inductive exn : Type :=
| FileNotFoundError (path : string)  (* "PDF文件不存在: {path}", line 35 *)
| ValueError_no_images               (* "没有图像可以转换为视频", line 63 *)
| RuntimeError_cannot_create         (* "无法创建视频文件", line 77 *)
| OverflowError_int_too_large        (* int too large to convert to float *)
| OverflowError_float_infinity       (* cannot convert float infinity to integer *)
| ValueError_float_nan               (* cannot convert float NaN to integer *)
| LibraryError (code : nat).         (* any Exception raised inside fitz, PIL or cv2 *)

(** The exact value of a number: a rational, an infinity, or NaN. *)
Inductive ereal : Type :=
| NaN
| NegInf
| Fin (q : Q)
| PosInf.

Definition float_value (f : spec_float) : ereal :=
  match f with
  | S754_nan => NaN
  | S754_infinity true => NegInf
  | S754_infinity false => PosInf
  | S754_zero _ => Fin 0%Q
  | S754_finite s m e =>
      match e with
      | Z0 => Fin (inject_Z (cond_Zopp s (Zpos m)))
      | Zpos p => Fin (inject_Z (cond_Zopp s (Zpos m) * 2 ^ Zpos p))
      | Zneg p => Fin (Qmake (cond_Zopp s (Zpos m)) (2 ^ p)%positive)
      end
  end.

Definition value (x : num) : ereal :=
  match x with
  | PyInt z => Fin (inject_Z z)
  | PyFloat f => float_value f
  end.

(** [a < b] on Python numbers: exact, False as soon as one side is NaN. *)
Definition ereal_ltb (a b : ereal) : bool :=
  match a, b with
  | NaN, _ | _, NaN => false
  | _, NegInf => false
  | NegInf, _ => true
  | PosInf, _ => false
  | Fin _, PosInf => true
  | Fin p, Fin q => match Qcompare p q with Lt => true | _ => false end
  end.

Definition ltb (a b : num) : bool := ereal_ltb (value a) (value b).

(** [x > 0]. *)
Definition is_positive (x : num) : bool := ltb (PyInt 0) x.

(** [float(z)] for an [int] [z]: round to nearest even; an [int] beyond
    the range of binary64 raises [OverflowError]. *)
Definition float_of_int (z : Z) : exn + spec_float :=
  match binary_normalize prec emax z 0 false with
  | S754_infinity _ => inl OverflowError_int_too_large
  | f => inr f
  end.

(** [a * b]: exact on two [int]s; otherwise the [int] operand is converted
    to [float] and the product is the IEEE one (which never raises). *)
Definition mul (a b : num) : exn + num :=
  match a, b with
  | PyInt x, PyInt y => inr (PyInt (x * y))
  | PyInt x, PyFloat g =>
      match float_of_int x with
      | inl e => inl e
      | inr f => inr (PyFloat (SFmul prec emax f g))
      end
  | PyFloat f, PyInt y =>
      match float_of_int y with
      | inl e => inl e
      | inr g => inr (PyFloat (SFmul prec emax f g))
      end
  | PyFloat f, PyFloat g => inr (PyFloat (SFmul prec emax f g))
  end.

(** Truncation of a rational toward zero. *)
Definition Qtrunc (q : Q) : Z := Z.quot (Qnum q) (Zpos (Qden q)).

(** [int(x)]: the identity on an [int], truncation toward zero on a finite
    [float], an error on an infinity or NaN. *)
Definition int (x : num) : exn + Z :=
  match value x with
  | Fin q => inr (Qtrunc q)
  | NaN => inl ValueError_float_nan
  | NegInf | PosInf => inl OverflowError_float_infinity
  end.

(** The mathematical floor of a number, where it has one. *)
Definition floor (x : num) : option Z :=
  match value x with
  | Fin q => Some (Qfloor q)
  | _ => None
  end.

(** Some [float] literals of the script and of the examples. *)
Definition float_0_5 : spec_float := S754_finite false 4503599627370496 (-53).
Definition float_0_01 : spec_float := S754_finite false 5764607523034235 (-59).
Definition float_1 : spec_float := S754_finite false 4503599627370496 (-52).
Definition float_neg_1 : spec_float := S754_finite true 4503599627370496 (-52).
Definition float_third : spec_float := S754_finite false 6004799503160661 (-54).
Definition float_1e308 : spec_float := S754_finite false 5010420900022432 971.

(** A float of sign [s], or NaN. *)
Inductive signed_as (s : bool) : spec_float -> Prop :=
| sa_zero : signed_as s (S754_zero s)
| sa_infinity : signed_as s (S754_infinity s)
| sa_nan : signed_as s S754_nan
| sa_finite m e : signed_as s (S754_finite s m e).

(** Not negative: an [int] at least 0, or a float of positive sign. *)
Definition nonneg (x : num) : Prop :=
  match x with
  | PyInt z => 0 <= z
  | PyFloat f => signed_as false f
  end.

End Py.

(** ** pathlib

    [pathlib.Path] on a POSIX host, as far as the script uses it: parsing a
    string, [stem], the [/] operator and [str]. *)

Module Pathlib.

Local Open Scope string_scope.

Record Path : Type := { root : string; parts : list string }.

(** [s.split(c)]. *)
Fixpoint split (c : ascii) (s : string) : list string :=
  match s with
  | EmptyString => [EmptyString]
  | String a s' =>
      if Ascii.eqb a c then EmptyString :: split c s'
      else match split c s' with
           | x :: xs => String a x :: xs
           | [] => [String a EmptyString]
           end
  end.

(** [s.lstrip('/')] together with the number of slashes removed. *)
Fixpoint lstrip_slash (s : string) : nat * string :=
  match s with
  | String a s' =>
      if Ascii.eqb a "/"%char
      then let '(n, r) := lstrip_slash s' in (S n, r)
      else (O, s)
  | EmptyString => (O, s)
  end.

Definition is_component (x : string) : bool :=
  negb (String.eqb x "" || String.eqb x ".").

(** [Path(s)]: the root is ["/"] for an absolute path (["//"] for exactly
    two leading slashes); empty and ["."] components are dropped. *)
Definition of_string (s : string) : Path :=
  let '(n, rest) := lstrip_slash s in
  {| root := match n with O => "" | 2%nat => "//" | _ => "/" end;
     parts := filter is_component (split "/"%char rest) |}.

(** [p.name]: the final component, or the empty string. *)
Definition name (p : Path) : string := last (parts p) "".

(** [s.rfind(c)], [None] for -1. *)
Fixpoint rfind (c : ascii) (s : string) : option nat :=
  match s with
  | EmptyString => None
  | String a s' =>
      match rfind c s' with
      | Some i => Some (S i)
      | None => if Ascii.eqb a c then Some O else None
      end
  end.

(** [p.stem]: the name without its last suffix; a leading or a trailing
    dot starts no suffix. *)
Definition stem (p : Path) : string :=
  let n := name p in
  match rfind "."%char n with
  | Some i =>
      if (Nat.ltb 0 i && Nat.ltb i (String.length n - 1))%bool
      then substring 0 i n
      else n
  | None => n
  end.

(** [p / s] for a string [s]. *)
Definition joinpath (p : Path) (s : string) : Path :=
  let q := of_string s in
  if String.eqb (root q) "" then
    {| root := root p; parts := parts p ++ parts q |}
  else q.

(** [str(p)]. *)
Definition str (p : Path) : string :=
  match parts p with
  | [] => if String.eqb (root p) "" then "." else root p
  | _ => root p ++ String.concat "/" (parts p)
  end.

End Pathlib.

(** ** Images, frames and the output video *)

(** A PIL image: its [size] is [(width, height)]; a page read back from PPM
    data is in mode RGB or, for a grey page, L. *)
Inductive Mode : Type := RGB | L.

Record Image : Type := {
  size : Z * Z;
  mode : Mode;
  pixels : list Z
}.

(** A numpy array: [shape] has three entries for a colour image, two for a
    grey one. *)
Record Array : Type := {
  shape : list Z;
  data : list Z
}.

Inductive ColorCode : Type := COLOR_RGB2BGR | COLOR_GRAY2BGR.

(** An opened PDF document. *)
Record Doc : Type := {
  doc_id : nat;
  len : nat
}.

(** [cv2.VideoWriter_fourcc(c1, c2, c3, c4)]. *)
Definition VideoWriter_fourcc (c1 c2 c3 c4 : ascii) : Z :=
  Z.lor (Z.lor (Z.of_N (N_of_ascii c1)) (Z.shiftl (Z.of_N (N_of_ascii c2)) 8))
        (Z.lor (Z.shiftl (Z.of_N (N_of_ascii c3)) 16)
               (Z.shiftl (Z.of_N (N_of_ascii c4)) 24)).

(** The [cv2.VideoWriter] object and the file it writes: the arguments it
    was constructed with, whether it is open, the frames appended so far, and
    whether [release] has sealed the container. *)
Record VideoSink : Type := {
  vs_path : string;
  vs_fourcc : Z;
  vs_fps : Py.num;
  vs_size : Z * Z;
  vs_opened : bool;
  vs_frames : list Array;
  vs_released : bool
}.

(** The [tqdm] bar of the writing loop. *)
Record Pbar : Type := {
  pb_total : Z;
  pb_n : Z;
  pb_closed : bool
}.

(** What the script prints (the texts are in the comments). *)
Inductive Msg : Type :=
| MsgReading (pdf_path : string)     (* "正在读取PDF文件: {pdf_path}" *)
| MsgPageCount (pages : nat)         (* "PDF共有 {len(doc)} 页" *)
| MsgCreating (output_path : string) (* "正在创建视频: {output_path}" *)
| MsgVideoDone (output_path : string)(* "视频创建完成: {output_path}" *)
| MsgConverted                       (* "转换完成！" *)
| MsgFailed (e : Py.exn).            (* "转换失败: {e}" *)

(** ** The world the script acts on

    [stdout] is what has been printed; [open_docs] counts the documents
    opened by [fitz.open] and not yet closed; [sink] is the most recently
    constructed video writer with the content of its file; [pbar] is the
    progress bar of the writing loop. *)
Record World : Type := {
  stdout : list Msg;
  open_docs : nat;
  sink : option VideoSink;
  pbar : option Pbar
}.

Definition initial_world : World :=
  {| stdout := []; open_docs := 0; sink := None; pbar := None |}.

(** ** The host: file system and libraries

    [exists_] is [Path.exists]; [fitz_open] is [fitz.open]; [render_page]
    is lines 47 to 51 for one page (load_page, get_pixmap under the matrix
    of scale dpi/72, tobytes, Image.open); [resize] is [Image.resize] with
    Lanczos resampling; [isOpened] is the constructor [cv2.VideoWriter]
    followed by [isOpened()]: with these arguments the constructor raises
    (for instance when fps does not fit a C double), or gives a writer that
    is open or not.  Opening, rendering and resizing may raise; [np_array]
    ([np.array]) and [cvtColor] ([cv2.cvtColor]) are applied to an image
    that [resize] returned and are taken not to raise, as are [Path.cwd]
    and [Path.exists].  The answers are functions of the arguments: the same
    file and the same calls give the same pages. *)
Record Host : Type := {
  cwd : Pathlib.Path;
  exists_ : string -> bool;
  fitz_open : string -> Py.exn + Doc;
  render_page : Doc -> nat -> Py.num -> Py.exn + Image;
  resize : Image -> Z * Z -> Py.exn + Image;
  np_array : Image -> Array;
  cvtColor : Array -> ColorCode -> Array;
  isOpened : string -> Z -> Py.num -> Z * Z -> Py.exn + bool
}.

(** ** Control: state and exceptions

    A computation ends by returning a value, by raising an exception of
    class [Exception], or by [sys.exit] ([SystemExit], which
    [except Exception] does not catch). *)
Inductive Result (A : Type) : Type :=
| Ok (a : A)
| Raise (e : Py.exn)
| Exit (code : Z).

Arguments Ok {A} a.
Arguments Raise {A} e.
Arguments Exit {A} code.

Definition M (A : Type) : Type := World -> Result A * World.

Definition ret {A} (a : A) : M A := fun w => (Ok a, w).

Definition bind {A B} (c : M A) (k : A -> M B) : M B :=
  fun w =>
    match c w with
    | (Ok a, w') => k a w'
    | (Raise e, w') => (Raise e, w')
    | (Exit code, w') => (Exit code, w')
    end.

Definition raise {A} (e : Py.exn) : M A := fun w => (Raise e, w).

(** [sys.exit(code)]. *)
Definition sys_exit {A} (code : Z) : M A := fun w => (Exit code, w).

(** [try: body except Exception as e: handler e]. *)
Definition try_except {A} (body : M A) (handler : Py.exn -> M A) : M A :=
  fun w =>
    match body w with
    | (Raise e, w') => handler e w'
    | r => r
    end.

(** A pure step that may raise. *)
Definition lift {A} (r : Py.exn + A) : M A :=
  match r with
  | inl e => raise e
  | inr a => ret a
  end.

Declare Scope py_scope.
Delimit Scope py_scope with py.
Notation "x <- c1 ;; c2" := (bind c1 (fun x => c2))
  (at level 61, c1 at next level, right associativity) : py_scope.
Notation "c1 ;; c2" := (bind c1 (fun _ => c2))
  (at level 61, right associativity) : py_scope.

(** The world after [print(m)]. *)
Definition printed (m : Msg) (w : World) : World :=
  {| stdout := stdout w ++ [m]; open_docs := open_docs w;
     sink := sink w; pbar := pbar w |}.

Definition print (m : Msg) : M unit := fun w => (Ok tt, printed m w).

Definition set_open_docs (k : nat) (w : World) : World :=
  {| stdout := stdout w; open_docs := k; sink := sink w; pbar := pbar w |}.

Definition set_sink (s : option VideoSink) (w : World) : World :=
  {| stdout := stdout w; open_docs := open_docs w; sink := s; pbar := pbar w |}.

Definition set_pbar (p : option Pbar) (w : World) : World :=
  {| stdout := stdout w; open_docs := open_docs w; sink := sink w; pbar := p |}.

(** [doc.close()]. *)
Definition doc_close (d : Doc) : M unit :=
  fun w => (Ok tt, set_open_docs (Nat.pred (open_docs w)) w).

(** [video_writer.isOpened()]. *)
Definition writer_isOpened : M bool :=
  fun w => (Ok match sink w with Some s => vs_opened s | None => false end, w).

(** [video_writer.write(frame)]: appends one frame to an open writer. *)
Definition writer_write (frame : Array) : M unit :=
  fun w =>
    match sink w with
    | Some s =>
        if vs_opened s then
          (Ok tt, set_sink (Some {| vs_path := vs_path s; vs_fourcc := vs_fourcc s;
                                    vs_fps := vs_fps s; vs_size := vs_size s;
                                    vs_opened := true;
                                    vs_frames := vs_frames s ++ [frame];
                                    vs_released := vs_released s |}) w)
        else (Ok tt, w)
    | None => (Ok tt, w)
    end.

(** [video_writer.release()]: closes the writer and seals the file. *)
Definition writer_release : M unit :=
  fun w =>
    match sink w with
    | Some s =>
        (Ok tt, set_sink (Some {| vs_path := vs_path s; vs_fourcc := vs_fourcc s;
                                  vs_fps := vs_fps s; vs_size := vs_size s;
                                  vs_opened := false;
                                  vs_frames := vs_frames s;
                                  vs_released := true |}) w)
    | None => (Ok tt, w)
    end.

(** [pbar.update(k)]. *)
Definition pbar_update (k : Z) : M unit :=
  fun w =>
    match pbar w with
    | Some b => (Ok tt, set_pbar (Some {| pb_total := pb_total b; pb_n := pb_n b + k;
                                          pb_closed := pb_closed b |}) w)
    | None => (Ok tt, w)
    end.

Definition pbar_close (w : World) : World :=
  match pbar w with
  | Some b => set_pbar (Some {| pb_total := pb_total b; pb_n := pb_n b; pb_closed := true |}) w
  | None => w
  end.

(** [with tqdm(total=t, ...) as pbar: body]: the bar is closed on every way
    out of the body. *)
Definition with_tqdm {A} (t : Z) (body : M A) : M A :=
  fun w =>
    let '(r, w') := body (set_pbar (Some {| pb_total := t; pb_n := 0; pb_closed := false |}) w) in
    (r, pbar_close w').

(** ** The script *)

(** An instance of [PDFToMP4Converter]. *)
Record PDFToMP4Converter : Type := {
  pdf_path : Pathlib.Path;
  duration_per_page : Py.num;
  fps : Py.num;
  output_path : Pathlib.Path
}.

(** The command line as [argparse] sees it: the positional argument and the
    options, [None] where the option is absent. *)
Record Argv : Type := {
  opt_pdf_file : string;
  opt_output : option string;
  opt_duration : option spec_float;
  opt_fps : option Z;
  opt_dpi : option Z
}.

(** The namespace [parser.parse_args()] returns. *)
Record Namespace : Type := {
  args_pdf_file : string;
  args_output : option string;
  args_duration : Py.num;
  args_fps : Py.num;
  args_dpi : Py.num
}.

Section Script.

Variable H : Host.

Local Open Scope py_scope.

(** Defaults of the class: [duration_per_page=3], [fps=30] of
    [__init__], [dpi=150] of [pdf_to_images] and [convert]. *)
Definition class_default_duration_per_page : Py.num := Py.PyInt 3.
Definition class_default_fps : Py.num := Py.PyInt 30.
Definition class_default_dpi : Py.num := Py.PyInt 150.

(** Defaults of the command line: [--duration 0.5], [--fps 30],
    [--dpi 300]. *)
Definition cli_default_duration : spec_float := Py.float_0_5.
Definition cli_default_fps : Z := 30.
Definition cli_default_dpi : Z := 300.

Definition default {A} (o : option A) (d : A) : A :=
  match o with Some a => a | None => d end.

(** Truth value of [output_path]: [None] and the empty string are false. *)
Definition truthy (o : option string) : bool :=
  match o with
  | Some s => negb (String.eqb s EmptyString)
  | None => false
  end.

(** [PDFToMP4Converter(pdf_path, output_path, duration_per_page, fps)];
    an omitted argument is [None]. *)
Definition __init__ (pdf_path_arg : string) (output_path_arg : option string)
           (duration_arg fps_arg : option Py.num) : M PDFToMP4Converter :=
  let pdf := Pathlib.of_string pdf_path_arg in
  let self :=
    {| pdf_path := pdf;
       duration_per_page := default duration_arg class_default_duration_per_page;
       fps := default fps_arg class_default_fps;
       output_path :=
         if truthy output_path_arg
         then Pathlib.of_string (default output_path_arg EmptyString)
         else Pathlib.joinpath (cwd H) (Pathlib.stem pdf ++ ".mp4")%string |} in
  if negb (exists_ H (Pathlib.str pdf))
  then raise (Py.FileNotFoundError (Pathlib.str pdf))
  else ret self.

(** [fitz.open(path)]. *)
Definition open_document (path : string) : M Doc :=
  fun w =>
    match fitz_open H path with
    | inl e => (Raise e, w)
    | inr d => (Ok d, set_open_docs (S (open_docs w)) w)
    end.

(** The loop of lines 46 to 53 over the remaining page numbers. *)
Fixpoint render_pages (doc : Doc) (dpi : Py.num) (page_nums : list nat)
         (images : list Image) : M (list Image) :=
  match page_nums with
  | [] => ret images
  | page_num :: rest =>
      img <- lift (render_page H doc page_num dpi) ;;
      render_pages doc dpi rest (images ++ [img])
  end.

(** [tqdm(range(len(doc)))] yields the page numbers of [range(len(doc))];
    its display is not part of the world. *)
Definition pdf_to_images (self : PDFToMP4Converter) (dpi_arg : option Py.num)
  : M (list Image) :=
  let dpi := default dpi_arg class_default_dpi in
  print (MsgReading (Pathlib.str (pdf_path self))) ;;
  doc <- open_document (Pathlib.str (pdf_path self)) ;;
  print (MsgPageCount (len doc)) ;;
  images <- render_pages doc dpi (seq 0 (len doc)) [] ;;
  doc_close doc ;;
  ret images.

(** Lines 69 to 72: one less if odd. *)
Definition even_down (x : Z) : Z := if x mod 2 =? 1 then x - 1 else x.

(** The frame size: the first image's size, each side made even. *)
Definition target_size (first_img : Image) : Z * Z :=
  let '(width, height) := size first_img in
  (even_down width, even_down height).

(** Lines 85 to 90: resize, then to a BGR array. *)
Definition frame_of (img : Image) (wh : Z * Z) : Py.exn + Array :=
  match resize H img wh with
  | inl e => inl e
  | inr img_resized =>
      let img_array := np_array H img_resized in
      inr (if Nat.eqb (List.length (shape img_array)) 3
           then cvtColor H img_array COLOR_RGB2BGR
           else cvtColor H img_array COLOR_GRAY2BGR)
  end.

(** Lines 92 to 94: [for _ in range(k)]. *)
Fixpoint write_frames (img_bgr : Array) (k : nat) : M unit :=
  match k with
  | O => ret tt
  | S k' =>
      writer_write img_bgr ;;
      pbar_update 1 ;;
      write_frames img_bgr k'
  end.

(** Lines 84 to 94: [for img in images]. *)
Fixpoint write_pages (images : list Image) (wh : Z * Z) (frames_per_page : Z)
  : M unit :=
  match images with
  | [] => ret tt
  | img :: rest =>
      img_bgr <- lift (frame_of img wh) ;;
      write_frames img_bgr (Z.to_nat frames_per_page) ;;
      write_pages rest wh frames_per_page
  end.

(** [cv2.VideoWriter(path, fourcc, fps, size)]: the constructor raises, or
    the writer it returns becomes the writer of the world. *)
Definition VideoWriter (path : string) (fourcc : Z) (fps_arg : Py.num)
           (wh : Z * Z) : M unit :=
  fun w =>
    match isOpened H path fourcc fps_arg wh with
    | inl e => (Raise e, w)
    | inr opened =>
        (Ok tt, set_sink (Some {| vs_path := path; vs_fourcc := fourcc;
                                  vs_fps := fps_arg; vs_size := wh;
                                  vs_opened := opened;
                                  vs_frames := []; vs_released := false |}) w)
    end.

(** Line 79: [int(self.fps * self.duration_per_page)]. *)
Definition frames_per_page_of (self : PDFToMP4Converter) : Py.exn + Z :=
  match Py.mul (fps self) (duration_per_page self) with
  | inl e => inl e
  | inr p => Py.int p
  end.

Definition images_to_video (self : PDFToMP4Converter) (images : list Image)
  : M unit :=
  match images with
  | [] => raise Py.ValueError_no_images
  | first_img :: _ =>
      print (MsgCreating (Pathlib.str (output_path self))) ;;
      let wh := target_size first_img in
      let fourcc := VideoWriter_fourcc "m" "p" "4" "v" in
      VideoWriter (Pathlib.str (output_path self)) fourcc (fps self) wh ;;
      opened <- writer_isOpened ;;
      if negb opened then raise Py.RuntimeError_cannot_create
      else
        frames_per_page <- lift (frames_per_page_of self) ;;
        let total_frames := Z.of_nat (List.length images) * frames_per_page in
        with_tqdm total_frames (write_pages images wh frames_per_page) ;;
        writer_release ;;
        print (MsgVideoDone (Pathlib.str (output_path self)))
  end.

Definition convert (self : PDFToMP4Converter) (dpi_arg : option Py.num)
  : M unit :=
  try_except
    (images <- pdf_to_images self (Some (default dpi_arg class_default_dpi)) ;;
     images_to_video self images ;;
     print MsgConverted)
    (fun e => print (MsgFailed e) ;; sys_exit 1).

(** [parser.parse_args()] on a command line that parses: absent options
    take the [default=] of their [add_argument].  A command line that
    argparse rejects, or one that asks for help, ends the process inside
    [parse_args] (status 2, or 0 after the usage text) before the converter
    exists; an [Argv] is a command line past that point. *)
Definition parse_args (argv : Argv) : Namespace :=
  {| args_pdf_file := opt_pdf_file argv;
     args_output := opt_output argv;
     args_duration := Py.PyFloat (default (opt_duration argv) cli_default_duration);
     args_fps := Py.PyInt (default (opt_fps argv) cli_default_fps);
     args_dpi := Py.PyInt (default (opt_dpi argv) cli_default_dpi) |}.

Definition main (argv : Argv) : M unit :=
  let args := parse_args argv in
  converter <- __init__ (args_pdf_file args) (args_output args)
                        (Some (args_duration args)) (Some (args_fps args)) ;;
  convert converter (Some (args_dpi args)).

(** The exit status of the process once the command line has parsed: 0
    when [main] returns, the code of [sys.exit], and 1 when an exception
    leaves [main] uncaught (the interpreter then prints the traceback). *)
Definition exit_status {A} (r : Result A) : Z :=
  match r with
  | Ok _ => 0
  | Exit code => code
  | Raise _ => 1
  end.

Definition run (argv : Argv) (w : World) : Z * World :=
  let '(r, w') := main argv w in (exit_status r, w').

(** *** Summaries used by the proofs

    Each loop is a fold over library calls that stops at the first
    exception: [render_all] and [compose] give its result as a value. *)

(** The images of the given pages, or the first exception. *)
Fixpoint render_all (doc : Doc) (dpi : Py.num) (page_nums : list nat)
  : Py.exn + list Image :=
  match page_nums with
  | [] => inr []
  | page_num :: rest =>
      match render_page H doc page_num dpi with
      | inl e => inl e
      | inr img =>
          match render_all doc dpi rest with
          | inl e => inl e
          | inr imgs => inr (img :: imgs)
          end
      end
  end.

(** The frames written for the given images, each repeated [k] times, up
    to the first exception. *)
Fixpoint compose (images : list Image) (wh : Z * Z) (k : nat)
  : list Array * option Py.exn :=
  match images with
  | [] => ([], None)
  | img :: rest =>
      match frame_of img wh with
      | inl e => ([], Some e)
      | inr img_bgr =>
          let '(fs, r) := compose rest wh k in
          (repeat img_bgr k ++ fs, r)
      end
  end.

(** The writer as [images_to_video] constructs it. *)
Definition sink_of (self : PDFToMP4Converter) (first_img : Image)
           (opened : bool) (frames : list Array) (released : bool) : VideoSink :=
  {| vs_path := Pathlib.str (output_path self);
     vs_fourcc := VideoWriter_fourcc "m" "p" "4" "v";
     vs_fps := fps self;
     vs_size := target_size first_img;
     vs_opened := opened;
     vs_frames := frames;
     vs_released := released |}.

(** The instance [main] constructs from the command line. *)
Definition converter_of (argv : Argv) : PDFToMP4Converter :=
  let args := parse_args argv in
  let pdf := Pathlib.of_string (args_pdf_file args) in
  {| pdf_path := pdf;
     duration_per_page := args_duration args;
     fps := args_fps args;
     output_path :=
       if truthy (args_output args)
       then Pathlib.of_string (default (args_output args) EmptyString)
       else Pathlib.joinpath (cwd H) (Pathlib.stem pdf ++ ".mp4")%string |}.

End Script.

(** ** Example hosts and command lines

    A two-page document whose first page is 1241 by 1755 pixels (both odd),
    libraries that always succeed, and variations of it. *)

Definition demo_page (k : nat) : Image :=
  {| size := (1241 + Z.of_nat k, 1755); mode := RGB; pixels := [Z.of_nat k] |}.

Definition demo_host : Host :=
  {| cwd := Pathlib.of_string "/home/user";
     exists_ := fun p => String.eqb p "talk/slides.pdf";
     fitz_open := fun p => inr {| doc_id := 0; len := 2 |};
     render_page := fun d k dpi => inr (demo_page k);
     resize := fun img wh => inr {| size := wh; mode := mode img; pixels := pixels img |};
     np_array := fun img => {| shape := [snd (size img); fst (size img); 3];
                               data := pixels img |};
     cvtColor := fun a c => {| shape := shape a; data := rev (data a) |};
     isOpened := fun _ _ _ _ => inr true |}.

(** The same host with a document of no page. *)
Definition empty_doc_host : Host :=
  {| cwd := cwd demo_host; exists_ := exists_ demo_host;
     fitz_open := fun p => inr {| doc_id := 0; len := 0 |};
     render_page := render_page demo_host; resize := resize demo_host;
     np_array := np_array demo_host; cvtColor := cvtColor demo_host;
     isOpened := isOpened demo_host |}.

(** The same host where rendering the second page raises. *)
Definition broken_page_host : Host :=
  {| cwd := cwd demo_host; exists_ := exists_ demo_host;
     fitz_open := fitz_open demo_host;
     render_page := fun d k dpi =>
       if Nat.eqb k 1 then inl (Py.LibraryError 7) else inr (demo_page k);
     resize := resize demo_host;
     np_array := np_array demo_host; cvtColor := cvtColor demo_host;
     isOpened := isOpened demo_host |}.

(** [make_video.py talk/slides.pdf -d D --fps F]. *)
Definition demo_argv (d : option spec_float) (f : option Z) : Argv :=
  {| opt_pdf_file := "talk/slides.pdf"; opt_output := None;
     opt_duration := d; opt_fps := f; opt_dpi := None |}.

(** [make_video.py nowhere.pdf]. *)
Definition missing_argv : Argv :=
  {| opt_pdf_file := "nowhere.pdf"; opt_output := None;
     opt_duration := None; opt_fps := None; opt_dpi := None |}.

(** The frame written for a page of [demo_host]. *)
Definition demo_frame (k : nat) : Array :=
  {| shape := [1754; 1240; 3]; data := [Z.of_nat k] |}.

(** The values given on the command line satisfy the invariant of the
    configuration: each of duration, fps and dpi, where given, is above 0. *)
Definition supplied_positive (argv : Argv) : Prop :=
  (forall d, opt_duration argv = Some d -> Py.is_positive (Py.PyFloat d) = true) /\
  (forall f, opt_fps argv = Some f -> 0 < f) /\
  (forall d, opt_dpi argv = Some d -> 0 < d).

(** The same host where resizing the second page raises. *)
Definition broken_resize_host : Host :=
  {| cwd := cwd demo_host; exists_ := exists_ demo_host;
     fitz_open := fitz_open demo_host;
     render_page := render_page demo_host;
     resize := fun img wh =>
       match pixels img with
       | [1] => inl (Py.LibraryError 9)
       | _ => resize demo_host img wh
       end;
     np_array := np_array demo_host; cvtColor := cvtColor demo_host;
     isOpened := isOpened demo_host |}.

(** The same host where no video writer opens. *)
Definition no_writer_host : Host :=
  {| cwd := cwd demo_host; exists_ := exists_ demo_host;
     fitz_open := fitz_open demo_host;
     render_page := render_page demo_host; resize := resize demo_host;
     np_array := np_array demo_host; cvtColor := cvtColor demo_host;
     isOpened := fun _ _ _ _ => inr false |}.

(** The characters of a string do not include [c]. *)
Definition free_of (c : ascii) (s : string) : Prop :=
  ~ In c (list_ascii_of_string s).

(** * Properties *)

(** ** Numbers *)

Module PyFacts.
Import Py.

#[local] Hint Constructors signed_as : core.

Lemma binary_round_aux_sign s m e l :
  signed_as s (binary_round_aux prec emax s m e l).
Proof.
  unfold binary_round_aux.
  destruct (shr_fexp prec emax m e l) as [mrs' e'].
  destruct (shr_fexp prec emax _ e' loc_Exact) as [mrs'' e''].
  destruct (shr_m mrs''); auto.
  destruct (Z.leb e'' (emax - prec)); auto.
Qed.

Lemma binary_round_sign s m e : signed_as s (binary_round prec emax s m e).
Proof.
  unfold binary_round.
  destruct (shl_align m e _) as [mz ez].
  apply binary_round_aux_sign.
Qed.

Lemma SFmul_nonneg f g :
  signed_as false f -> signed_as false g ->
  signed_as false (SFmul prec emax f g).
Proof.
  intros Hf Hg; destruct Hf, Hg; simpl; auto.
  apply binary_round_aux_sign.
Qed.

Lemma ereal_ltb_Fin p q :
  ereal_ltb (Fin p) (Fin q) = true <-> (Qnum p * Zpos (Qden q) < Qnum q * Zpos (Qden p)).
Proof.
  simpl. unfold Qcompare.
  destruct (Z.compare_spec (Qnum p * Zpos (Qden q)) (Qnum q * Zpos (Qden p)));
    split; intros; try discriminate; try lia; reflexivity.
Qed.

Lemma is_positive_nonneg x : is_positive x = true -> nonneg x.
Proof.
  unfold is_positive, ltb.
  destruct x as [z | f]; simpl value.
  - rewrite ereal_ltb_Fin; simpl; lia.
  - destruct f as [s | s | | s m e]; simpl; try discriminate.
    + destruct s; [discriminate | constructor].
    + destruct s; [ | constructor].
      intros Hlt; exfalso.
      destruct e as [ | p | p]; cbn [float_value] in Hlt;
        apply ereal_ltb_Fin in Hlt;
        cbn [Qnum Qden inject_Z cond_Zopp Z.opp] in Hlt; lia.
Qed.

Lemma float_of_int_nonneg z f :
  0 <= z -> float_of_int z = inr f -> signed_as false f.
Proof.
  unfold float_of_int, binary_normalize; intros Hz.
  destruct z as [ | m | m]; try lia.
  - intros [= <-]; constructor.
  - pose proof (binary_round_sign false m 0) as Hs.
    destruct (binary_round prec emax false m 0); try discriminate;
      intros [= <-]; exact Hs.
Qed.

Lemma mul_nonneg a b p :
  nonneg a -> nonneg b -> mul a b = inr p -> nonneg p.
Proof.
  destruct a as [x | f], b as [y | g]; simpl; intros Ha Hb.
  - intros [= <-]; simpl; lia.
  - destruct (float_of_int x) as [e | f] eqn:Hx; [discriminate | ].
    intros [= <-]; simpl.
    apply SFmul_nonneg; eauto using float_of_int_nonneg.
  - destruct (float_of_int y) as [e | g] eqn:Hy; [discriminate | ].
    intros [= <-]; simpl.
    apply SFmul_nonneg; eauto using float_of_int_nonneg.
  - intros [= <-]; simpl. now apply SFmul_nonneg.
Qed.


Lemma nonneg_value x q : nonneg x -> value x = Fin q -> 0 <= Qnum q.
Proof.
  destruct x as [z | f]; cbn [value nonneg].
  - intros Hz [= <-]; simpl; lia.
  - intros Hs; destruct Hs; cbn [float_value]; try discriminate.
    + intros [= <-]; simpl; lia.
    + destruct e as [ | p | p]; intros Hq;
        match type of Hq with
        | Fin ?a = Fin ?b => assert (E : a = b) by congruence; clear Hq; subst b
        end;
        cbn [Qnum Qden inject_Z cond_Zopp]; lia.
Qed.


Lemma Qtrunc_small q :
  - Zpos (Qden q) < Qnum q < Zpos (Qden q) -> Qtrunc q = 0.
Proof.
  destruct q as [a d]; unfold Qtrunc; simpl; intros Ha.
  destruct (Z_le_gt_dec 0 a).
  - apply Z.quot_small; lia.
  - replace a with (- (- a)) by lia.
    rewrite Z.quot_opp_l by lia.
    rewrite Z.quot_small; lia.
Qed.

(** [int] of a number strictly between -1 and 1 is 0. *)
Lemma int_small x :
  ltb (PyInt (-1)) x = true -> ltb x (PyInt 1) = true -> int x = inr 0.
Proof.
  unfold ltb, int.
  destruct (value x) as [ | | q | ] eqn:Hv; simpl value; try discriminate.
  rewrite !ereal_ltb_Fin; simpl; intros Hlo Hhi.
  rewrite Qtrunc_small; [reflexivity | lia].
Qed.


Lemma is_positive_int z : is_positive (PyInt z) = true <-> 0 < z.
Proof.
  unfold is_positive, ltb; cbn [value].
  rewrite ereal_ltb_Fin; simpl; lia.
Qed.

End PyFacts.

(** ** Checks on concrete inputs *)

(** [int(30 * 0.5) = 15], [int(30 * 0.01) = 0]. *)
Example frames_per_page_30_half :
  frames_per_page_of (converter_of demo_host (demo_argv None None)) = inr 15.
Proof. vm_compute. reflexivity. Qed.

Example frames_per_page_30_hundredth :
  frames_per_page_of (converter_of demo_host (demo_argv (Some Py.float_0_01) None)) = inr 0.
Proof. vm_compute. reflexivity. Qed.

(** The product is the rounded one: [3 * 0.3333333333333333 == 1.0]. *)
Example mul_3_third :
  Py.mul (Py.PyInt 3) (Py.PyFloat Py.float_third) = inr (Py.PyFloat Py.float_1).
Proof. vm_compute. reflexivity. Qed.

(** [30 * 1e308] overflows to infinity, which has no floor and on which
    [int] raises. *)
Example frames_per_page_overflow :
  Py.mul (Py.PyInt 30) (Py.PyFloat Py.float_1e308) = inr (Py.PyFloat (S754_infinity false)) /\
  Py.floor (Py.PyFloat (S754_infinity false)) = None /\
  frames_per_page_of (converter_of demo_host (demo_argv (Some Py.float_1e308) None)) =
    inl Py.OverflowError_float_infinity.
Proof. repeat split; vm_compute; reflexivity. Qed.

(** The code of the four characters m, p, 4, v is 0x7634706d. *)
Example fourcc_mp4v : VideoWriter_fourcc "m" "p" "4" "v" = 1983148141.
Proof. reflexivity. Qed.

(** Stems as pathlib computes them. *)
Example stem_examples :
  Pathlib.stem (Pathlib.of_string "docs/./paper.v2.pdf") = "paper.v2"%string /\
  Pathlib.stem (Pathlib.of_string "/x/slides.pdf") = "slides"%string /\
  Pathlib.stem (Pathlib.of_string ".hidden") = ".hidden"%string.
Proof. repeat split. Qed.

(** A run of the script on the two-page document with the defaults of the
    command line: thirty frames, fifteen per page. *)
Example run_demo_defaults :
  exists w' s,
    run demo_host (demo_argv None None) initial_world = (0, w') /\
    sink w' = Some s /\
    vs_path s = "/home/user/slides.mp4"%string /\
    vs_size s = (1240, 1754) /\
    vs_frames s = repeat (demo_frame 0) 15 ++ repeat (demo_frame 1) 15 /\
    stdout w' = [MsgReading "talk/slides.pdf"; MsgPageCount 2;
                 MsgCreating "/home/user/slides.mp4";
                 MsgVideoDone "/home/user/slides.mp4"; MsgConverted].
Proof. eexists; eexists. vm_compute. repeat split. Qed.

(** ** The two steps of the pipeline in one equation each *)

Section Steps.

Variable H : Host.

Lemma render_pages_spec doc dpi page_nums : forall images w,
  render_pages H doc dpi page_nums images w =
  (match render_all H doc dpi page_nums with
   | inl e => Raise e
   | inr imgs => Ok (images ++ imgs)
   end, w).
Proof.
  induction page_nums as [ | k rest IH]; intros images w; cbn.
  - now rewrite app_nil_r.
  - unfold bind, lift.
    destruct (render_page H doc k dpi) as [e | img]; [reflexivity | ].
    cbn. rewrite IH.
    destruct (render_all H doc dpi rest) as [e | imgs]; [reflexivity | ].
    now rewrite <- app_assoc.
Qed.

Lemma write_frames_spec img_bgr k : forall o d p fc fp sz fr rl t c m,
  write_frames img_bgr k
    {| stdout := o; open_docs := d;
       sink := Some (Build_VideoSink p fc fp sz true fr rl);
       pbar := Some (Build_Pbar t m c) |} =
  (Ok tt,
   {| stdout := o; open_docs := d;
      sink := Some (Build_VideoSink p fc fp sz true (fr ++ repeat img_bgr k) rl);
      pbar := Some (Build_Pbar t (m + Z.of_nat k) c) |}).
Proof.
  induction k as [ | k IH]; intros; cbn [write_frames].
  - cbn. now rewrite app_nil_r, Z.add_0_r.
  - unfold bind, writer_write, pbar_update, set_pbar, set_sink. cbn.
    rewrite IH. rewrite <- app_assoc. cbn [app].
    replace (m + 1 + Z.of_nat k) with (m + Z.of_nat (S k)) by lia.
    reflexivity.
Qed.

Lemma write_pages_spec images wh fpp : forall o d p fc fp sz fr rl t c m,
  write_pages H images wh fpp
    {| stdout := o; open_docs := d;
       sink := Some (Build_VideoSink p fc fp sz true fr rl);
       pbar := Some (Build_Pbar t m c) |} =
  (match snd (compose H images wh (Z.to_nat fpp)) with
   | None => Ok tt
   | Some e => Raise e
   end,
   {| stdout := o; open_docs := d;
      sink := Some (Build_VideoSink p fc fp sz true
                      (fr ++ fst (compose H images wh (Z.to_nat fpp))) rl);
      pbar := Some (Build_Pbar t
                      (m + Z.of_nat (List.length (fst (compose H images wh (Z.to_nat fpp))))) c) |}).
Proof.
  induction images as [ | img rest IH]; intros; cbn [write_pages compose].
  - cbn. now rewrite app_nil_r, Z.add_0_r.
  - unfold bind at 1, lift.
    destruct (frame_of H img wh) as [e | img_bgr].
    + cbn. now rewrite app_nil_r, Z.add_0_r.
    + cbn [ret]. unfold bind at 1. rewrite write_frames_spec.
      rewrite IH.
      destruct (compose H rest wh (Z.to_nat fpp)) as [fs r]; cbn [fst snd].
      rewrite <- app_assoc, length_app, repeat_length, Nat2Z.inj_add, Z.add_assoc.
      reflexivity.
Qed.

(** What [pdf_to_images] does, in one equation. *)
Lemma pdf_to_images_spec self dpi_arg w :
  pdf_to_images H self dpi_arg w =
  let path := Pathlib.str (pdf_path self) in
  match fitz_open H path with
  | inl e =>
      (Raise e,
       {| stdout := stdout w ++ [MsgReading path]; open_docs := open_docs w;
          sink := sink w; pbar := pbar w |})
  | inr doc =>
      match render_all H doc (default dpi_arg class_default_dpi) (seq 0 (len doc)) with
      | inl e =>
          (Raise e,
           {| stdout := stdout w ++ [MsgReading path; MsgPageCount (len doc)];
              open_docs := S (open_docs w); sink := sink w; pbar := pbar w |})
      | inr imgs =>
          (Ok imgs,
           {| stdout := stdout w ++ [MsgReading path; MsgPageCount (len doc)];
              open_docs := open_docs w; sink := sink w; pbar := pbar w |})
      end
  end.
Proof.
  unfold pdf_to_images, bind, print, printed, open_document. cbn.
  destruct (fitz_open H (Pathlib.str (pdf_path self))) as [e | doc]; [reflexivity | ].
  cbn. rewrite render_pages_spec.
  destruct (render_all H doc _ _) as [e | imgs]; cbn;
    rewrite <- app_assoc; reflexivity.
Qed.

(** What [images_to_video] does on a non-empty list, in one equation. *)
Lemma images_to_video_spec self first_img rest w :
  images_to_video H self (first_img :: rest) w =
  let images := first_img :: rest in
  let path := Pathlib.str (output_path self) in
  let wh := target_size first_img in
  match isOpened H path (VideoWriter_fourcc "m" "p" "4" "v") (fps self) wh with
  | inl e =>
      (Raise e,
       {| stdout := stdout w ++ [MsgCreating path]; open_docs := open_docs w;
          sink := sink w; pbar := pbar w |})
  | inr true =>
    match frames_per_page_of self with
    | inl e =>
        (Raise e,
         {| stdout := stdout w ++ [MsgCreating path]; open_docs := open_docs w;
            sink := Some (sink_of self first_img true [] false);
            pbar := pbar w |})
    | inr k =>
        let fs := fst (compose H images wh (Z.to_nat k)) in
        let bar := Some (Build_Pbar (Z.of_nat (List.length images) * k)
                                    (Z.of_nat (List.length fs)) true) in
        match snd (compose H images wh (Z.to_nat k)) with
        | Some e =>
            (Raise e,
             {| stdout := stdout w ++ [MsgCreating path];
                open_docs := open_docs w;
                sink := Some (sink_of self first_img true fs false);
                pbar := bar |})
        | None =>
            (Ok tt,
             {| stdout := stdout w ++ [MsgCreating path; MsgVideoDone path];
                open_docs := open_docs w;
                sink := Some (sink_of self first_img false fs true);
                pbar := bar |})
        end
    end
  | inr false =>
    (Raise Py.RuntimeError_cannot_create,
     {| stdout := stdout w ++ [MsgCreating path]; open_docs := open_docs w;
        sink := Some (sink_of self first_img false [] false);
        pbar := pbar w |})
  end.
Proof.
  unfold images_to_video.
  unfold bind at 1, print, printed. unfold bind at 1, VideoWriter.
  cbn [sink vs_opened stdout open_docs pbar].
  destruct (isOpened H _ _ _ _) as [e | opened]; [reflexivity | ].
  unfold bind at 1, writer_isOpened. unfold set_sink.
  cbn [sink vs_opened stdout open_docs pbar].
  destruct opened; cbn [negb]; [ | reflexivity].
  unfold bind at 1, lift.
  destruct (frames_per_page_of self) as [e | k]; [reflexivity | ].
  cbn [ret]. unfold bind at 1, with_tqdm. unfold set_pbar.
  cbn [stdout open_docs sink pbar].
  rewrite write_pages_spec.
  destruct (compose H (first_img :: rest) (target_size first_img) (Z.to_nat k)) as [fs r].
  cbn [fst snd]. destruct r as [e | ]; cbn.
  - reflexivity.
  - unfold sink_of, printed. cbn. rewrite <- app_assoc. reflexivity.
Qed.

(** [convert] in terms of its two steps. *)
Lemma convert_spec self dpi_arg w :
  convert H self dpi_arg w =
  match pdf_to_images H self (Some (default dpi_arg class_default_dpi)) w with
  | (Ok images, w1) =>
      match images_to_video H self images w1 with
      | (Ok _, w2) => (Ok tt, printed MsgConverted w2)
      | (Raise e, w2) => (Exit 1, printed (MsgFailed e) w2)
      | (Exit code, w2) => (Exit code, w2)
      end
  | (Raise e, w1) => (Exit 1, printed (MsgFailed e) w1)
  | (Exit code, w1) => (Exit code, w1)
  end.
Proof.
  unfold convert, try_except. unfold bind at 1.
  destruct (pdf_to_images H self _ w) as [[images | e | code] w1]; try reflexivity.
  unfold bind at 1.
  destruct (images_to_video H self images w1) as [[[] | e | code] w2]; reflexivity.
Qed.

(** [main]: the existence check of the constructor, then [convert]. *)
Lemma main_spec argv w :
  main H argv w =
  let self := converter_of H argv in
  if exists_ H (Pathlib.str (pdf_path self))
  then convert H self (Some (args_dpi (parse_args argv))) w
  else (Raise (Py.FileNotFoundError (Pathlib.str (pdf_path self))), w).
Proof.
  unfold main, __init__. unfold bind at 1. cbn.
  destruct (exists_ H _); reflexivity.
Qed.

Lemma render_all_Forall2 doc dpi page_nums images :
  Forall2 (fun page_num img => render_page H doc page_num dpi = inr img)
          page_nums images ->
  render_all H doc dpi page_nums = inr images.
Proof.
  induction 1 as [ | k img rest imgs Hk _ IH]; cbn; [reflexivity | ].
  now rewrite Hk, IH.
Qed.

Lemma compose_Forall2 images wh k frames :
  Forall2 (fun img fr => frame_of H img wh = inr fr) images frames ->
  compose H images wh k = (flat_map (fun fr => repeat fr k) frames, None).
Proof.
  induction 1 as [ | img fr rest frs Hfr _ IH]; cbn; [reflexivity | ].
  now rewrite Hfr, IH.
Qed.

Lemma compose_In images wh k fr :
  In fr (fst (compose H images wh k)) ->
  exists img, In img images /\ frame_of H img wh = inr fr.
Proof.
  induction images as [ | img rest IH]; cbn; [tauto | ].
  destruct (frame_of H img wh) as [e | img_bgr] eqn:Hf; cbn; [tauto | ].
  destruct (compose H rest wh k) as [fs r]; cbn in *.
  rewrite in_app_iff. intros [Hin | Hin].
  - apply repeat_spec in Hin. subst. eauto.
  - destruct (IH Hin) as (img' & Hin' & Hf'). eauto.
Qed.

End Steps.

(** ** Lists of repeated frames *)

Lemma flat_map_repeat_length {A} (k : nat) (xs : list A) :
  List.length (flat_map (fun x => repeat x k) xs) = (List.length xs * k)%nat.
Proof.
  induction xs as [ | x xs IH]; cbn; [reflexivity | ].
  now rewrite length_app, repeat_length, IH.
Qed.



(** ** The claims of the specification *)

Import PyFacts.



(** The frames [compose] gives are those of the pages up to the first one
    that cannot be resized: each page resized to [wh], read as an array,
    converted to BGR by lines 87 to 90, and repeated [k] times. *)
Lemma compose_resized (H : Host) (wh : Z * Z) (k : nat) (images : list Image) :
  exists processed remaining resized,
    images = processed ++ remaining /\
    Forall2 (fun img img_resized => resize H img wh = inr img_resized)
            processed resized /\
    fst (compose H images wh k) =
      flat_map (fun img_resized =>
                  repeat (if Nat.eqb (List.length (shape (np_array H img_resized))) 3
                          then cvtColor H (np_array H img_resized) COLOR_RGB2BGR
                          else cvtColor H (np_array H img_resized) COLOR_GRAY2BGR) k)
               resized /\
    match snd (compose H images wh k) with
    | None => remaining = []
    | Some e => exists bad after, remaining = bad :: after /\ resize H bad wh = inl e
    end.
Proof.
  induction images as [ | img rest IH]; cbn [compose].
  - exists [], [], []. cbn. repeat split. constructor.
  - unfold frame_of.
    destruct (resize H img wh) as [e | img_resized] eqn:Hresize.
    + exists [], (img :: rest), []. cbn. repeat split; [constructor | eauto].
    + destruct IH as (processed & remaining & resized & Himages & Hall & Hfs & Hend).
      destruct (compose H rest wh k) as [fs r]. cbn [fst snd] in *.
      exists (img :: processed), remaining, (img_resized :: resized).
      split; [cbn; now rewrite Himages | ].
      split; [now constructor | ].
      split; [cbn [flat_map]; now rewrite Hfs | exact Hend].
Qed.

(** C2.  On a non-empty page sequence [images_to_video] calls the writer's
    constructor with one size: that of the first page, width and height each
    one less if odd, so both even.  If the constructor returns, the writer
    has that size whatever happens afterwards, and the frames in it are
    exactly those of the pages processed so far, in order, each page resized
    to that one size (by [resize]) before it is converted and repeated;
    when [images_to_video] returns normally every page of the sequence was
    so resized, also when the repeat count is 0.  If the constructor raises,
    that exception is the result and no writer exists. *)
Theorem C2_frame_size_even_from_first_page :
  forall (H : Host) (self : PDFToMP4Converter) (first_img : Image)
         (rest : list Image) (w : World),
    target_size first_img =
      ((if Z.odd (fst (size first_img))
        then fst (size first_img) - 1 else fst (size first_img)),
       (if Z.odd (snd (size first_img))
        then snd (size first_img) - 1 else snd (size first_img))) /\
    Z.even (fst (target_size first_img)) = true /\
    Z.even (snd (target_size first_img)) = true /\
    match isOpened H (Pathlib.str (output_path self))
                   (VideoWriter_fourcc "m" "p" "4" "v") (fps self)
                   (target_size first_img) with
    | inl e =>
        fst (images_to_video H self (first_img :: rest) w) = Raise e /\
        sink (snd (images_to_video H self (first_img :: rest) w)) = sink w
    | inr _ =>
        exists s processed remaining resized,
          sink (snd (images_to_video H self (first_img :: rest) w)) = Some s /\
          vs_size s = target_size first_img /\
          first_img :: rest = processed ++ remaining /\
          Forall2 (fun img img_resized =>
                     resize H img (target_size first_img) = inr img_resized)
                  processed resized /\
          vs_frames s =
            flat_map
              (fun img_resized =>
                 repeat (if Nat.eqb (List.length (shape (np_array H img_resized))) 3
                         then cvtColor H (np_array H img_resized) COLOR_RGB2BGR
                         else cvtColor H (np_array H img_resized) COLOR_GRAY2BGR)
                        (match frames_per_page_of self with
                         | inr k => Z.to_nat k
                         | inl _ => O
                         end))
              resized /\
          match fst (images_to_video H self (first_img :: rest) w) with
          | Ok _ => remaining = []
          | _ => True
          end
    end.
Proof.
  intros H self first_img rest w.
  assert (Hdown : forall x, even_down x = if Z.odd x then x - 1 else x).
  { intros x. unfold even_down. rewrite Zmod_odd. now destruct (Z.odd x). }
  assert (Heven : forall x, Z.even (even_down x) = true).
  { intros x. rewrite Hdown. destruct (Z.odd x) eqn:Hx.
    - rewrite Z.even_sub, <- Z.negb_odd, Hx. reflexivity.
    - now rewrite <- Z.negb_odd, Hx. }
  split.
  { unfold target_size. destruct (size first_img) as [width height].
    cbn [fst snd]. now rewrite !Hdown. }
  split.
  { unfold target_size. destruct (size first_img) as [width height]. apply Heven. }
  split.
  { unfold target_size. destruct (size first_img) as [width height]. apply Heven. }
  rewrite images_to_video_spec. cbv zeta.
  destruct (isOpened H _ _ _ _) as [e | [ | ]].
  - split; reflexivity.
  - destruct (frames_per_page_of self) as [e | k].
    + exists (sink_of self first_img true [] false), [], (first_img :: rest), [].
      cbn. repeat split. constructor.
    + destruct (compose_resized H (target_size first_img) (Z.to_nat k)
                  (first_img :: rest))
        as (processed & remaining & resized & Himages & Hall & Hfs & Hend).
      destruct (snd (compose H _ _ _)) as [e | ];
        eexists; exists processed, remaining, resized;
        (split; [reflexivity | ]); (split; [reflexivity | ]);
        (split; [exact Himages | ]); (split; [exact Hall | ]);
        (split; [exact Hfs | ]); cbn [fst]; auto.
  - exists (sink_of self first_img false [] false), [], (first_img :: rest), [].
    cbn. repeat split. constructor.
Qed.

(** C3, as stated, fails: the existence check of the input path is made by
    the constructor, which [main] calls outside the [try] of [convert].  For
    a missing input the [FileNotFoundError] leaves [main] uncaught and the
    script prints nothing. *)
Lemma C3_counterexample :
  main demo_host missing_argv initial_world =
  (Raise (Py.FileNotFoundError "nowhere.pdf"), initial_world).
Proof. reflexivity. Qed.

(** C3, amended.  Whatever the rasterizer ([pdf_to_images]) or the frame
    composer and video writer ([images_to_video]) raise is caught once by
    [convert]: the message is printed and the result is [sys.exit(1)];
    [convert] lets no exception out, and no step exits by itself.  The
    check of the input path is not under that handler: [main] is the
    constructor's check followed by [convert], and for a missing input the
    [FileNotFoundError] is the result of [main]. *)
Theorem C3_errors_inside_convert_caught_once :
  forall (H : Host) (argv : Argv) (self : PDFToMP4Converter)
         (dpi : option Py.num) (w : World),
    match pdf_to_images H self (Some (default dpi class_default_dpi)) w with
    | (Raise e, w1) => convert H self dpi w = (Exit 1, printed (MsgFailed e) w1)
    | (Exit _, _) => False
    | (Ok images, w1) =>
        match images_to_video H self images w1 with
        | (Raise e, w2) => convert H self dpi w = (Exit 1, printed (MsgFailed e) w2)
        | (Exit _, _) => False
        | (Ok _, w2) => convert H self dpi w = (Ok tt, printed MsgConverted w2)
        end
    end /\
    main H argv w =
    if exists_ H (Pathlib.str (Pathlib.of_string (opt_pdf_file argv)))
    then convert H (converter_of H argv) (Some (args_dpi (parse_args argv))) w
    else (Raise (Py.FileNotFoundError
                   (Pathlib.str (Pathlib.of_string (opt_pdf_file argv)))), w).
Proof.
  intros H argv self dpi w. split; [ | apply main_spec].
  rewrite convert_spec, pdf_to_images_spec. cbv zeta.
  destruct (fitz_open H _) as [e | doc]; [reflexivity | ].
  destruct (render_all H doc _ _) as [e | [ | first_img rest]]; try reflexivity.
  rewrite images_to_video_spec. cbv zeta.
  destruct (isOpened H _ _ _ _) as [e | [ | ]]; try reflexivity.
  destruct (frames_per_page_of self) as [e | k]; [reflexivity | ].
  destruct (snd (compose H _ _ _)); reflexivity.
Qed.

(** C4, as stated, fails: when rendering the second page raises, the
    document opened by [pdf_to_images] is still open when the step ends. *)
Lemma C4_counterexample :
  exists w',
    pdf_to_images broken_page_host
                  (converter_of broken_page_host (demo_argv None None))
                  None initial_world = (Raise (Py.LibraryError 7), w') /\
    open_docs initial_world = 0%nat /\
    open_docs w' = 1%nat.
Proof. eexists. repeat split. Qed.

(** C4, amended.  [pdf_to_images] closes the document it opened exactly
    when every page renders: if it returns the images, as many documents are
    open afterwards as before; if a page raises, [doc.close()] is not
    reached and one more document is open.  If the document does not open,
    nothing was opened. *)
Theorem C4_document_closed_when_pages_render :
  forall (H : Host) (self : PDFToMP4Converter) (dpi : option Py.num) (w : World),
    match fitz_open H (Pathlib.str (pdf_path self)),
          pdf_to_images H self dpi w with
    | inl _, (_, w') => open_docs w' = open_docs w
    | inr _, (Ok _, w') => open_docs w' = open_docs w
    | inr _, (Raise _, w') => open_docs w' = S (open_docs w)
    | inr _, (Exit _, _) => False
    end.
Proof.
  intros H self dpi w. rewrite pdf_to_images_spec. cbv zeta.
  destruct (fitz_open H _) as [e | doc]; [reflexivity | ].
  destruct (render_all H doc _ _); reflexivity.
Qed.

(** C5.  If the input path does not exist, the run ends with the
    [FileNotFoundError] of the constructor, the exit status is 1, and the
    world is as before: no writer was constructed, so no output file was
    created. *)
Theorem C5_missing_input_fails :
  forall (H : Host) (argv : Argv) (w : World),
    exists_ H (Pathlib.str (Pathlib.of_string (opt_pdf_file argv))) = false ->
    main H argv w =
      (Raise (Py.FileNotFoundError
                (Pathlib.str (Pathlib.of_string (opt_pdf_file argv)))), w) /\
    run H argv w = (1, w) /\
    sink (snd (run H argv w)) = sink w.
Proof.
  intros H argv w Hmissing.
  assert (Hmain : main H argv w =
                  (Raise (Py.FileNotFoundError
                            (Pathlib.str (Pathlib.of_string (opt_pdf_file argv)))), w)).
  { rewrite main_spec. cbv zeta. cbn [converter_of pdf_path parse_args args_pdf_file].
    now rewrite Hmissing. }
  unfold run. rewrite Hmain. auto.
Qed.

(** C5 at [demo_host]: [nowhere.pdf] does not exist. *)
Lemma C5_witness :
  run demo_host missing_argv initial_world = (1, initial_world).
Proof.
  apply (C5_missing_input_fails demo_host missing_argv initial_world).
  reflexivity.
Defined.

(** C6.  If the document has no page, [images_to_video] raises its
    [ValueError] before constructing the writer: the run prints the failure
    and exits with status 1, and the writer and its file are untouched. *)
Theorem C6_empty_document_fails :
  forall (H : Host) (argv : Argv) (w : World) (doc : Doc),
    exists_ H (Pathlib.str (Pathlib.of_string (opt_pdf_file argv))) = true ->
    fitz_open H (Pathlib.str (Pathlib.of_string (opt_pdf_file argv))) = inr doc ->
    len doc = 0%nat ->
    exists w',
      run H argv w = (1, w') /\
      images_to_video H (converter_of H argv) [] w = (Raise Py.ValueError_no_images, w) /\
      stdout w' = stdout w ++
                  [MsgReading (Pathlib.str (Pathlib.of_string (opt_pdf_file argv)));
                   MsgPageCount 0; MsgFailed Py.ValueError_no_images] /\
      sink w' = sink w /\
      pbar w' = pbar w.
Proof.
  intros H argv w doc Hexists Hopen Hlen.
  unfold run. rewrite main_spec. cbv zeta.
  cbn [converter_of pdf_path parse_args args_pdf_file].
  rewrite Hexists, convert_spec, pdf_to_images_spec. cbv zeta.
  cbn [converter_of pdf_path parse_args args_pdf_file].
  rewrite Hopen, Hlen. cbn.
  eexists. split; [reflexivity | ].
  split; [reflexivity | ]. cbn. rewrite <- app_assoc. auto.
Qed.

(** C6 at [empty_doc_host]. *)
Lemma C6_witness :
  exists w',
    run empty_doc_host (demo_argv None None) initial_world = (1, w') /\
    stdout w' = [MsgReading "talk/slides.pdf"; MsgPageCount 0;
                 MsgFailed Py.ValueError_no_images] /\
    sink w' = None.
Proof.
  destruct (C6_empty_document_fails empty_doc_host (demo_argv None None)
              initial_world {| doc_id := 0; len := 0 |})
    as (w' & Hrun & _ & Hout & Hsink & _); try reflexivity.
  exists w'. auto.
Defined.

(** C7, as stated, fails: nothing checks the parameters.  With [-d 0] the
    duration is not above 0, and the conversion runs all the same: the
    writer is constructed, released, and the exit status is 0. *)
Lemma C7_counterexample :
  Py.is_positive
    (args_duration (parse_args (demo_argv (Some (S754_zero false)) None))) = false /\
  exists w' s,
    run demo_host (demo_argv (Some (S754_zero false)) None) initial_world = (0, w') /\
    sink w' = Some s /\
    vs_released s = true.
Proof.
  split; [reflexivity | ].
  eexists; eexists. vm_compute. repeat split.
Qed.

(** C7, amended.  The script takes duration, fps and dpi as they are given
    (or the defaults of the command line, 0.5, 30 and 300) and checks none of
    them: the instance the constructor returns and the dpi passed to
    [convert] carry exactly these values.  So seconds-per-page > 0, fps > 0
    and DPI > 0 hold in a run exactly when the values given satisfy them;
    in particular they hold when all three are left to their defaults. *)
Theorem C7_parameters_taken_unchecked :
  forall (H : Host) (argv : Argv) (w w' : World) (self : PDFToMP4Converter),
    __init__ H (args_pdf_file (parse_args argv)) (args_output (parse_args argv))
             (Some (args_duration (parse_args argv)))
             (Some (args_fps (parse_args argv))) w = (Ok self, w') ->
    duration_per_page self = Py.PyFloat (default (opt_duration argv) Py.float_0_5) /\
    fps self = Py.PyInt (default (opt_fps argv) 30) /\
    args_dpi (parse_args argv) = Py.PyInt (default (opt_dpi argv) 300) /\
    main H argv w = convert H self (Some (args_dpi (parse_args argv))) w' /\
    (supplied_positive argv <->
     Py.is_positive (duration_per_page self) = true /\
     Py.is_positive (fps self) = true /\
     Py.is_positive (args_dpi (parse_args argv)) = true).
Proof.
  intros H argv w w' self Hinit.
  assert (Hself : self = converter_of H argv /\ w' = w /\
                  main H argv w = convert H self (Some (args_dpi (parse_args argv))) w').
  { unfold main. unfold bind at 1. rewrite Hinit.
    unfold __init__ in Hinit.
    destruct (negb (exists_ H _)); [discriminate | ].
    injection Hinit as <- <-. auto. }
  destruct Hself as (-> & -> & Hmain).
  split; [reflexivity | ]. split; [reflexivity | ]. split; [reflexivity | ].
  split; [exact Hmain | ].
  unfold supplied_positive.
  cbn [converter_of parse_args duration_per_page fps args_duration args_fps args_dpi].
  rewrite !is_positive_int.
  destruct argv as [pdf out d f dpi]; cbn [opt_duration opt_fps opt_dpi].
  split.
  - intros (Hd & Hf & Hdpi). repeat split.
    + destruct d as [d | ]; [now apply Hd | reflexivity].
    + destruct f as [f | ]; [now apply Hf | reflexivity].
    + destruct dpi as [dpi | ]; [now apply Hdpi | reflexivity].
  - intros (Hd & Hf & Hdpi). repeat split.
    + intros d0 [= ->]. exact Hd.
    + intros f0 [= ->]. exact Hf.
    + intros dpi0 [= ->]. exact Hdpi.
Qed.

(** C7 at the defaults of the command line. *)
Lemma C7_witness :
  supplied_positive (demo_argv None None) <->
  Py.is_positive (Py.PyFloat Py.float_0_5) = true /\
  Py.is_positive (Py.PyInt 30) = true /\
  Py.is_positive (Py.PyInt 300) = true.
Proof.
  apply (C7_parameters_taken_unchecked demo_host (demo_argv None None)
           initial_world initial_world
           (converter_of demo_host (demo_argv None None))).
  reflexivity.
Defined.

(** The exit status of a run does not depend on the world it starts in, and
    the writer it leaves is either a writer built from the arguments alone
    or, when none was constructed, the one that was there. *)
Lemma run_sink_uniform (H : Host) (argv : Argv) :
  exists (code : Z) (built : option VideoSink),
    forall w,
      fst (run H argv w) = code /\
      sink (snd (run H argv w)) =
        match built with Some s => Some s | None => sink w end.
Proof.
  assert (Hrun : forall w, run H argv w =
                 let '(r, w') := main H argv w in (exit_status r, w'))
    by reflexivity.
  destruct (exists_ H (Pathlib.str (pdf_path (converter_of H argv)))) eqn:Hex.
  2: { exists 1, None. intros w. rewrite Hrun, main_spec. cbv zeta.
       rewrite Hex. auto. }
  destruct (fitz_open H (Pathlib.str (pdf_path (converter_of H argv))))
    as [e | doc] eqn:Hopen.
  { exists 1, None. intros w.
    rewrite Hrun, main_spec. cbv zeta.
    rewrite Hex, convert_spec, pdf_to_images_spec. cbv zeta.
    rewrite Hopen. auto. }
  destruct (render_all H doc (args_dpi (parse_args argv)) (seq 0 (len doc)))
    as [e | [ | first_img rest]] eqn:Hrender.
  1, 2: exists 1, None; intros w;
    rewrite Hrun, main_spec; cbv zeta;
    rewrite Hex, convert_spec, pdf_to_images_spec; cbv zeta;
    rewrite Hopen; cbn [default]; rewrite Hrender; auto.
  pose (self := converter_of H argv).
  destruct (isOpened H (Pathlib.str (output_path self))
                     (VideoWriter_fourcc "m" "p" "4" "v") (fps self)
                     (target_size first_img)) as [e | [ | ]] eqn:Hwriter.
  1: { exists 1, None. intros w.
       rewrite Hrun, main_spec. cbv zeta.
       rewrite Hex, convert_spec, pdf_to_images_spec. cbv zeta.
       rewrite Hopen. cbn [default]. rewrite Hrender.
       rewrite images_to_video_spec. cbv zeta.
       fold self. rewrite Hwriter. auto. }
  2: { exists 1, (Some (sink_of self first_img false [] false)). intros w.
       rewrite Hrun, main_spec. cbv zeta.
       rewrite Hex, convert_spec, pdf_to_images_spec. cbv zeta.
       rewrite Hopen. cbn [default]. rewrite Hrender.
       rewrite images_to_video_spec. cbv zeta.
       fold self. rewrite Hwriter. auto. }
  destruct (frames_per_page_of self) as [e | k] eqn:Hfpp.
  { exists 1, (Some (sink_of self first_img true [] false)). intros w.
    rewrite Hrun, main_spec. cbv zeta.
    rewrite Hex, convert_spec, pdf_to_images_spec. cbv zeta.
    rewrite Hopen. cbn [default]. rewrite Hrender.
    rewrite images_to_video_spec. cbv zeta.
    fold self. rewrite Hwriter, Hfpp. auto. }
  destruct (compose H (first_img :: rest) (target_size first_img) (Z.to_nat k))
    as [fs [e | ]] eqn:Hcompose.
  - exists 1, (Some (sink_of self first_img true fs false)). intros w.
    rewrite Hrun, main_spec. cbv zeta.
    rewrite Hex, convert_spec, pdf_to_images_spec. cbv zeta.
    rewrite Hopen. cbn [default]. rewrite Hrender.
    rewrite images_to_video_spec. cbv zeta.
    fold self. rewrite Hwriter, Hfpp, Hcompose. auto.
  - exists 0, (Some (sink_of self first_img false fs true)). intros w.
    rewrite Hrun, main_spec. cbv zeta.
    rewrite Hex, convert_spec, pdf_to_images_spec. cbv zeta.
    rewrite Hopen. cbn [default]. rewrite Hrender.
    rewrite images_to_video_spec. cbv zeta.
    fold self. rewrite Hwriter, Hfpp, Hcompose. auto.
Qed.

(** C8.  Run the script, then run it again with the same command line on
    the same host, in the world the first run left (its output file
    included).  Both runs end with the same exit status and leave the same
    video: the same path, size and fps, and the same frames in the same
    order, hence the same number of frames.  The host answers are functions
    of their arguments: the same input gives the same pages. *)
Theorem C8_second_run_same_frames :
  forall (H : Host) (argv : Argv) (w : World),
    fst (run H argv (snd (run H argv w))) = fst (run H argv w) /\
    sink (snd (run H argv (snd (run H argv w)))) = sink (snd (run H argv w)) /\
    option_map vs_frames (sink (snd (run H argv (snd (run H argv w))))) =
      option_map vs_frames (sink (snd (run H argv w))) /\
    option_map (fun s => List.length (vs_frames s))
               (sink (snd (run H argv (snd (run H argv w))))) =
      option_map (fun s => List.length (vs_frames s)) (sink (snd (run H argv w))).
Proof.
  intros H argv w.
  destruct (run_sink_uniform H argv) as (code & built & Huniform).
  destruct (Huniform w) as [Hcode1 Hsink1].
  destruct (Huniform (snd (run H argv w))) as [Hcode2 Hsink2].
  assert (Hsame : sink (snd (run H argv (snd (run H argv w)))) =
                  sink (snd (run H argv w))).
  { rewrite Hsink2, Hsink1. now destruct built. }
  rewrite Hsame. repeat split. congruence.
Qed.

(** C9.  The defaults of the two layers.  An instance constructed with only
    the PDF path has [duration_per_page] 3 and [fps] 30, and its output path
    is the working directory joined with the stem of the PDF name and
    [.mp4]; [pdf_to_images] and [convert] called without a dpi use 150.  A
    command line with only the PDF path is parsed to duration 0.5 (the float
    of value one half), fps 30, dpi 300 and no output, and [main] passes
    these to the constructor and to [convert], so its output path is the
    same default. *)
Theorem C9_defaults_of_class_and_command_line :
  forall (H : Host) (pdf : string) (w w' : World) (self : PDFToMP4Converter),
    __init__ H pdf None None None w = (Ok self, w') ->
    duration_per_page self = Py.PyInt 3 /\
    fps self = Py.PyInt 30 /\
    output_path self =
      Pathlib.joinpath (cwd H) (Pathlib.stem (Pathlib.of_string pdf) ++ ".mp4")%string /\
    pdf_to_images H self None = pdf_to_images H self (Some (Py.PyInt 150)) /\
    convert H self None = convert H self (Some (Py.PyInt 150)) /\
    parse_args {| opt_pdf_file := pdf; opt_output := None; opt_duration := None;
                  opt_fps := None; opt_dpi := None |} =
      {| args_pdf_file := pdf; args_output := None;
         args_duration := Py.PyFloat Py.float_0_5;
         args_fps := Py.PyInt 30; args_dpi := Py.PyInt 300 |} /\
    (exists q, Py.value (Py.PyFloat Py.float_0_5) = Py.Fin q /\ (q == 1 # 2)%Q) /\
    main H {| opt_pdf_file := pdf; opt_output := None; opt_duration := None;
              opt_fps := None; opt_dpi := None |} w =
      convert H {| pdf_path := pdf_path self;
                   duration_per_page := Py.PyFloat Py.float_0_5;
                   fps := Py.PyInt 30;
                   output_path := output_path self |}
              (Some (Py.PyInt 300)) w.
Proof.
  intros H pdf w w' self Hinit.
  unfold __init__ in Hinit.
  destruct (negb (exists_ H (Pathlib.str (Pathlib.of_string pdf)))) eqn:Hex;
    [discriminate | ].
  injection Hinit as <- <-.
  cbn [duration_per_page fps output_path pdf_path default truthy].
  repeat (split; [reflexivity | ]).
  split.
  - eexists. split; [reflexivity | ]. reflexivity.
  - rewrite main_spec. cbv zeta.
    cbn [converter_of parse_args pdf_path args_pdf_file opt_pdf_file].
    apply negb_false_iff in Hex. rewrite Hex. reflexivity.
Qed.

(** C9 at [demo_host]: [talk/slides.pdf] run from [/home/user]. *)
Lemma C9_witness :
  Pathlib.of_string "/home/user/slides.mp4" =
  Pathlib.joinpath (cwd demo_host)
    (Pathlib.stem (Pathlib.of_string "talk/slides.pdf") ++ ".mp4")%string.
Proof.
  destruct (C9_defaults_of_class_and_command_line demo_host "talk/slides.pdf"
              initial_world initial_world
              {| pdf_path := Pathlib.of_string "talk/slides.pdf";
                 duration_per_page := Py.PyInt 3; fps := Py.PyInt 30;
                 output_path := Pathlib.of_string "/home/user/slides.mp4" |})
    as (_ & _ & Hout & _).
  - reflexivity.
  - exact Hout.
Defined.

(** C10, as stated, fails: with fps 30 and duration -1 the product -30 is
    below 1, and the repeat count [int(fps * duration_per_page)] is -30, not
    0. *)
Lemma C10_counterexample :
  Py.mul (Py.PyInt 30) (Py.PyFloat Py.float_neg_1) =
    inr (Py.PyFloat (S754_finite true 8444249301319680 (-48))) /\
  Py.ltb (Py.PyFloat (S754_finite true 8444249301319680 (-48))) (Py.PyInt 1) = true /\
  frames_per_page_of (converter_of demo_host (demo_argv (Some Py.float_neg_1) None)) =
    inr (-30) /\
  -30 <> 0.
Proof. repeat split; try (vm_compute; reflexivity). discriminate. Qed.

(** C10, amended.  For a PDF of at least one page that opens, renders and
    resizes without error and a writer that opens: if fps *
    duration_per_page is strictly between -1 and 1, the repeat count is 0, no
    frame is written, and [convert] still returns normally (exit status 0),
    leaving a released video of no frame; no exception is raised. *)
Theorem C10_zero_frames_when_product_below_one :
  forall (H : Host) (self : PDFToMP4Converter) (dpi : option Py.num) (w : World)
         (doc : Doc) (first_img : Image) (rest : list Image)
         (frames : list Array) (p : Py.num),
    fitz_open H (Pathlib.str (pdf_path self)) = inr doc ->
    Forall2 (fun page_num img =>
               render_page H doc page_num (default dpi class_default_dpi) = inr img)
            (seq 0 (len doc)) (first_img :: rest) ->
    isOpened H (Pathlib.str (output_path self)) (VideoWriter_fourcc "m" "p" "4" "v")
             (fps self) (target_size first_img) = inr true ->
    Forall2 (fun img fr => frame_of H img (target_size first_img) = inr fr)
            (first_img :: rest) frames ->
    Py.mul (fps self) (duration_per_page self) = inr p ->
    Py.ltb (Py.PyInt (-1)) p = true ->
    Py.ltb p (Py.PyInt 1) = true ->
    exists w',
      frames_per_page_of self = inr 0 /\
      convert H self dpi w = (Ok tt, w') /\
      exit_status (fst (convert H self dpi w)) = 0 /\
      sink w' = Some (sink_of self first_img false [] true) /\
      vs_frames (sink_of self first_img false [] true) = [] /\
      vs_released (sink_of self first_img false [] true) = true.
Proof.
  intros H self dpi w doc first_img rest frames p
         Hopen Hrender Hwriter Hframes Hmul Hlow Hhigh.
  assert (Hfpp : frames_per_page_of self = inr 0).
  { unfold frames_per_page_of. rewrite Hmul. now apply int_small. }
  assert (Hnone : flat_map (fun fr : Array => repeat fr (Z.to_nat 0)) frames = []).
  { apply length_zero_iff_nil. rewrite flat_map_repeat_length. cbn. lia. }
  rewrite convert_spec, pdf_to_images_spec. cbv zeta. cbn [default].
  rewrite Hopen, (render_all_Forall2 _ _ _ _ _ Hrender).
  rewrite images_to_video_spec. cbv zeta.
  rewrite Hwriter, Hfpp.
  rewrite (compose_Forall2 _ _ _ _ _ Hframes). cbn [fst snd].
  rewrite Hnone.
  eexists. repeat (split; [reflexivity | ]). reflexivity.
Qed.

(** C10 at [demo_host] with fps 30 and duration 0.01. *)
Lemma C10_witness :
  exists w',
    convert demo_host (converter_of demo_host (demo_argv (Some Py.float_0_01) None))
            None initial_world = (Ok tt, w') /\
    option_map vs_frames (sink w') = Some [].
Proof.
  destruct (C10_zero_frames_when_product_below_one demo_host
              (converter_of demo_host (demo_argv (Some Py.float_0_01) None))
              None initial_world {| doc_id := 0; len := 2 |}
              (demo_page 0) [demo_page 1] [demo_frame 0; demo_frame 1]
              (Py.PyFloat (S754_finite false 5404319552844595 (-54))))
    as (w' & _ & Hrun & _ & Hsink & _).
  - reflexivity.
  - repeat constructor.
  - reflexivity.
  - repeat constructor.
  - vm_compute. reflexivity.
  - vm_compute. reflexivity.
  - vm_compute. reflexivity.
  - exists w'. split; [exact Hrun | ]. now rewrite Hsink.
Defined.

(** * Further properties of the script *)

(** ** The whole of [convert] and of [main] in one equation each

    The ways [convert] can go: the document does not open; a page does not
    render; there is no page; the writer's constructor raises; the writer
    does not open; the repeat count cannot be computed; a page cannot be
    resized; or every step succeeds. *)
Lemma convert_cases (H : Host) (self : PDFToMP4Converter)
      (dpi_arg : option Py.num) (w : World) :
  convert H self dpi_arg w =
  let pdf := Pathlib.str (pdf_path self) in
  let out := Pathlib.str (output_path self) in
  let dpi := default dpi_arg class_default_dpi in
  match fitz_open H pdf with
  | inl e =>
      (Exit 1,
       {| stdout := stdout w ++ [MsgReading pdf; MsgFailed e];
          open_docs := open_docs w; sink := sink w; pbar := pbar w |})
  | inr doc =>
      match render_all H doc dpi (seq 0 (len doc)) with
      | inl e =>
          (Exit 1,
           {| stdout := stdout w ++ [MsgReading pdf; MsgPageCount (len doc);
                                     MsgFailed e];
              open_docs := S (open_docs w); sink := sink w; pbar := pbar w |})
      | inr [] =>
          (Exit 1,
           {| stdout := stdout w ++ [MsgReading pdf; MsgPageCount (len doc);
                                     MsgFailed Py.ValueError_no_images];
              open_docs := open_docs w; sink := sink w; pbar := pbar w |})
      | inr (first_img :: rest) =>
          let wh := target_size first_img in
          match isOpened H out (VideoWriter_fourcc "m" "p" "4" "v") (fps self) wh with
          | inl e =>
              (Exit 1,
               {| stdout := stdout w ++ [MsgReading pdf; MsgPageCount (len doc);
                                         MsgCreating out; MsgFailed e];
                  open_docs := open_docs w; sink := sink w; pbar := pbar w |})
          | inr true =>
            match frames_per_page_of self with
            | inl e =>
                (Exit 1,
                 {| stdout := stdout w ++ [MsgReading pdf; MsgPageCount (len doc);
                                           MsgCreating out; MsgFailed e];
                    open_docs := open_docs w;
                    sink := Some (sink_of self first_img true [] false);
                    pbar := pbar w |})
            | inr k =>
                let fs := fst (compose H (first_img :: rest) wh (Z.to_nat k)) in
                let bar := Some (Build_Pbar (Z.of_nat (S (List.length rest)) * k)
                                            (Z.of_nat (List.length fs)) true) in
                match snd (compose H (first_img :: rest) wh (Z.to_nat k)) with
                | Some e =>
                    (Exit 1,
                     {| stdout := stdout w ++ [MsgReading pdf; MsgPageCount (len doc);
                                               MsgCreating out; MsgFailed e];
                        open_docs := open_docs w;
                        sink := Some (sink_of self first_img true fs false);
                        pbar := bar |})
                | None =>
                    (Ok tt,
                     {| stdout := stdout w ++ [MsgReading pdf; MsgPageCount (len doc);
                                               MsgCreating out; MsgVideoDone out;
                                               MsgConverted];
                        open_docs := open_docs w;
                        sink := Some (sink_of self first_img false fs true);
                        pbar := bar |})
                end
            end
          | inr false =>
            (Exit 1,
             {| stdout := stdout w ++ [MsgReading pdf; MsgPageCount (len doc);
                                       MsgCreating out;
                                       MsgFailed Py.RuntimeError_cannot_create];
                open_docs := open_docs w;
                sink := Some (sink_of self first_img false [] false);
                pbar := pbar w |})
          end
      end
  end.
Proof.
  rewrite convert_spec, pdf_to_images_spec. cbv zeta. cbn [default].
  destruct (fitz_open H _) as [e | doc].
  { unfold printed; cbn. now rewrite <- app_assoc. }
  destruct (render_all H doc _ _) as [e | [ | first_img rest]].
  1, 2: unfold printed; cbn; now rewrite <- app_assoc.
  rewrite images_to_video_spec. cbv zeta.
  destruct (isOpened H _ _ _ _) as [e | [ | ]].
  1, 3: unfold printed; cbn; now rewrite <- !app_assoc.
  destruct (frames_per_page_of _) as [e | k].
  { unfold printed; cbn. now rewrite <- !app_assoc. }
  destruct (snd (compose H _ _ _));
    unfold printed; cbn [stdout open_docs sink pbar List.length];
    now rewrite <- !app_assoc.
Qed.

(** [main]: the check of the input path, then the cases of [convert]. *)
Lemma main_cases (H : Host) (argv : Argv) (w : World) :
  main H argv w =
  if exists_ H (Pathlib.str (pdf_path (converter_of H argv)))
  then convert H (converter_of H argv) (Some (args_dpi (parse_args argv))) w
  else (Raise (Py.FileNotFoundError
                 (Pathlib.str (pdf_path (converter_of H argv)))), w).
Proof. apply main_spec. Qed.

(** Every leaf of [convert_cases], with the host's answers named. *)
Ltac convert_leaves H :=
  rewrite (convert_cases H); cbv zeta; cbn [default];
  destruct (fitz_open H _) as [? | doc] eqn:Hopen;
  [ | destruct (render_all H doc _ _) as [? | [ | first_img rest]] eqn:Hrender;
      [ | | destruct (isOpened H _ _ _ _) as [? | [ | ]] eqn:Hwriter;
            [ | destruct (frames_per_page_of _) as [? | k] eqn:Hfpp;
                [ | destruct (compose H _ _ _) as [fs [? | ]] eqn:Hcompose;
                    cbn [fst snd] ]
            | ] ] ].

(** Every leaf of [main]. *)
Ltac main_leaves H argv :=
  rewrite (main_cases H argv);
  destruct (exists_ H _) eqn:Hexists; [convert_leaves H | ].

(** ** The result of [convert] and its messages *)

(** X1.  [convert] ends in one of two ways.  Either it returns normally,
    and the last line printed is the success message; or it ends with
    [sys.exit(1)], the last line printed is the failure message, and the
    success message was not printed. *)
Theorem convert_result_and_last_message :
  forall (H : Host) (self : PDFToMP4Converter) (dpi : option Py.num) (w : World),
    (fst (convert H self dpi w) = Ok tt /\
     exists msgs,
       stdout (snd (convert H self dpi w)) = stdout w ++ msgs ++ [MsgConverted]) \/
    (fst (convert H self dpi w) = Exit 1 /\
     exists msgs e,
       stdout (snd (convert H self dpi w)) = stdout w ++ msgs ++ [MsgFailed e] /\
       ~ In MsgConverted msgs).
Proof.
  intros H self dpi w.
  convert_leaves H; cbn [fst snd stdout].
  7: { left. split; [reflexivity | ]. eexists [_; _; _; _]. reflexivity. }
  1: { right. split; [reflexivity | ]. eexists [_], _.
       split; [reflexivity | ]. intros [Hin | []]; discriminate. }
  1, 2: right; split; [reflexivity | ]; eexists [_; _], _;
    (split; [reflexivity | ]);
    intros Hin; repeat destruct Hin as [Hin | Hin]; try discriminate; exact Hin.
  all: right; split; [reflexivity | ]; eexists [_; _; _], _;
    (split; [reflexivity | ]);
    intros Hin; repeat destruct Hin as [Hin | Hin]; try discriminate; exact Hin.
Qed.

(** ** Resources *)

(** X3.  When [convert] returns normally it has released everything: as
    many documents are open as before, the writer is released and no longer
    open, the progress bar is closed and counts exactly the frames in the
    video, and the five progress messages were printed in order. *)
Theorem success_releases_everything :
  forall (H : Host) (self : PDFToMP4Converter) (dpi : option Py.num)
         (w w' : World),
    convert H self dpi w = (Ok tt, w') ->
    exists s pages t,
      sink w' = Some s /\
      vs_released s = true /\
      vs_opened s = false /\
      open_docs w' = open_docs w /\
      pbar w' = Some (Build_Pbar t (Z.of_nat (List.length (vs_frames s))) true) /\
      stdout w' = stdout w ++
                  [MsgReading (Pathlib.str (pdf_path self));
                   MsgPageCount pages; MsgCreating (vs_path s);
                   MsgVideoDone (vs_path s); MsgConverted].
Proof.
  intros H self dpi w w'.
  convert_leaves H; intros Hrun; try discriminate Hrun.
  apply (f_equal snd) in Hrun. cbn [snd] in Hrun. subst w'.
  eexists; eexists; eexists. repeat (split; [reflexivity | ]). reflexivity.
Qed.

Lemma success_releases_everything_witness :
  exists s,
    sink (snd (convert demo_host (converter_of demo_host (demo_argv None None))
                       None initial_world)) = Some s /\
    vs_released s = true.
Proof.
  destruct (success_releases_everything demo_host
              (converter_of demo_host (demo_argv None None)) None initial_world
              (snd (convert demo_host (converter_of demo_host (demo_argv None None))
                            None initial_world)))
    as (s & _ & _ & Hsink & Hrel & _).
  - vm_compute. reflexivity.
  - exists s. auto.
Defined.

(** X4.  No cleanup on failure: starting without a writer, [convert] leaves
    a released video exactly when it returns normally.  When it fails after
    the writer was constructed, the writer is left unreleased. *)
Theorem writer_released_iff_success :
  forall (H : Host) (self : PDFToMP4Converter) (dpi : option Py.num) (w : World),
    sink w = None ->
    ((exists s, sink (snd (convert H self dpi w)) = Some s /\
                vs_released s = true) <->
     fst (convert H self dpi w) = Ok tt).
Proof.
  intros H self dpi w Hnone.
  convert_leaves H; cbn [fst snd sink]; rewrite ?Hnone;
    split; intros Hx;
    try discriminate Hx;
    try (destruct Hx as (s & Hs & Hrel); try discriminate Hs;
         injection Hs as <-; discriminate Hrel);
    try reflexivity.
  eexists. split; reflexivity.
Qed.

Lemma writer_released_iff_success_witness :
  (exists s,
     sink (snd (convert broken_resize_host
                        (converter_of broken_resize_host (demo_argv None None))
                        None initial_world)) = Some s /\
     vs_released s = true) <->
  fst (convert broken_resize_host
               (converter_of broken_resize_host (demo_argv None None))
               None initial_world) = Ok tt.
Proof.
  apply (writer_released_iff_success broken_resize_host
           (converter_of broken_resize_host (demo_argv None None)) None
           initial_world).
  reflexivity.
Defined.

(** ** The rasterizer *)

Lemma render_all_inv (H : Host) doc dpi page_nums : forall images,
  render_all H doc dpi page_nums = inr images ->
  Forall2 (fun page_num img => render_page H doc page_num dpi = inr img)
          page_nums images.
Proof.
  induction page_nums as [ | k rest IH]; cbn; intros images.
  - intros [= <-]. constructor.
  - destruct (render_page H doc k dpi) as [e | img] eqn:Hk; [discriminate | ].
    destruct (render_all H doc dpi rest) as [e | imgs]; [discriminate | ].
    intros [= <-]. constructor; auto.
Qed.

Lemma Forall2_nth_error_r {A B} (R : A -> B -> Prop) xs ys :
  Forall2 R xs ys ->
  forall i y, nth_error ys i = Some y ->
    exists x, nth_error xs i = Some x /\ R x y.
Proof.
  induction 1 as [ | x y xs ys Hxy _ IH]; intros i y0.
  - destruct i; discriminate.
  - destruct i as [ | i]; cbn.
    + intros [= <-]. eauto.
    + apply IH.
Qed.

Lemma render_all_failure (H : Host) doc dpi e before page_num after :
  (forall k, In k before -> exists img, render_page H doc k dpi = inr img) ->
  render_page H doc page_num dpi = inl e ->
  render_all H doc dpi (before ++ page_num :: after) = inl e.
Proof.
  intros Hbefore Hfail.
  induction before as [ | k before IH]; cbn.
  - now rewrite Hfail.
  - destruct (Hbefore k) as [img ->]; [now left | ].
    rewrite IH; [reflexivity | ].
    intros k' Hin. apply Hbefore. now right.
Qed.

(** X5.  When [pdf_to_images] returns, it returns one image per page of the
    document, in page order: image [i] is the rendering of page [i] at the
    dpi asked for (150 when none is given). *)
Theorem pdf_to_images_one_image_per_page_in_order :
  forall (H : Host) (self : PDFToMP4Converter) (dpi : option Py.num)
         (w w' : World) (images : list Image),
    pdf_to_images H self dpi w = (Ok images, w') ->
    exists doc,
      fitz_open H (Pathlib.str (pdf_path self)) = inr doc /\
      List.length images = len doc /\
      forall i img, nth_error images i = Some img ->
        render_page H doc i (default dpi (Py.PyInt 150)) = inr img.
Proof.
  intros H self dpi w w' images. rewrite pdf_to_images_spec. cbv zeta.
  destruct (fitz_open H _) as [e | doc]; [discriminate | ].
  destruct (render_all H doc _ _) as [e | imgs] eqn:Hrender; [discriminate | ].
  intros [= <- _]. exists doc.
  apply render_all_inv in Hrender.
  split; [reflexivity | ]. split.
  - rewrite <- (Forall2_length Hrender). apply length_seq.
  - intros i img Hi.
    destruct (Forall2_nth_error_r _ _ _ Hrender i img Hi) as (k & Hk & Hpage).
    rewrite nth_error_seq in Hk.
    destruct (Nat.ltb i (len doc)); [ | discriminate].
    injection Hk as <-. exact Hpage.
Qed.

Lemma pdf_to_images_one_image_per_page_in_order_witness :
  render_page demo_host {| doc_id := 0; len := 2 |} 1 (Py.PyInt 150)
  = inr (demo_page 1).
Proof.
  destruct (pdf_to_images_one_image_per_page_in_order demo_host
              (converter_of demo_host (demo_argv None None)) None
              initial_world
              (snd (pdf_to_images demo_host
                      (converter_of demo_host (demo_argv None None)) None
                      initial_world))
              [demo_page 0; demo_page 1])
    as (doc & Hdoc & _ & Hpages).
  - reflexivity.
  - injection Hdoc as <-. apply (Hpages 1%nat). reflexivity.
Defined.

(** X6.  If the pages before page [i] render and page [i] raises,
    [pdf_to_images] raises that exception: the pages after it do not matter
    and no image is returned.  Both messages of the step were printed. *)
Theorem pdf_to_images_raises_first_page_error :
  forall (H : Host) (self : PDFToMP4Converter) (dpi : option Py.num) (w : World)
         (doc : Doc) (i : nat) (e : Py.exn),
    fitz_open H (Pathlib.str (pdf_path self)) = inr doc ->
    (i < len doc)%nat ->
    (forall j, (j < i)%nat ->
       exists img, render_page H doc j (default dpi (Py.PyInt 150)) = inr img) ->
    render_page H doc i (default dpi (Py.PyInt 150)) = inl e ->
    exists w',
      pdf_to_images H self dpi w = (Raise e, w') /\
      stdout w' = stdout w ++ [MsgReading (Pathlib.str (pdf_path self));
                               MsgPageCount (len doc)] /\
      sink w' = sink w.
Proof.
  intros H self dpi w doc i e Hopen Hi Hbefore Hfail.
  assert (Hseq : seq 0 (len doc) = seq 0 i ++ i :: seq (S i) (len doc - S i)).
  { generalize (len doc) Hi. intros n Hn.
    replace n with (i + S (n - S i))%nat at 1 by lia.
    rewrite seq_app. reflexivity. }
  rewrite pdf_to_images_spec. cbv zeta. rewrite Hopen, Hseq.
  rewrite (render_all_failure H doc _ e (seq 0 i) i _); [ | | exact Hfail].
  - eexists. repeat split.
  - intros j Hj. apply in_seq in Hj. apply Hbefore. lia.
Qed.

Lemma pdf_to_images_raises_first_page_error_witness :
  exists w',
    pdf_to_images broken_page_host
                  (converter_of broken_page_host (demo_argv None None)) None
                  initial_world = (Raise (Py.LibraryError 7), w').
Proof.
  destruct (pdf_to_images_raises_first_page_error broken_page_host
              (converter_of broken_page_host (demo_argv None None)) None
              initial_world {| doc_id := 0; len := 2 |} 1 (Py.LibraryError 7))
    as (w' & Hrun & _).
  - reflexivity.
  - cbn. lia.
  - intros j Hj. assert (j = 0)%nat as -> by lia. eexists. reflexivity.
  - reflexivity.
  - exists w'. exact Hrun.
Defined.

(** ** The frame composer and the video writer *)

Lemma compose_failure (H : Host) wh k e before bad after frames :
  Forall2 (fun img fr => frame_of H img wh = inr fr) before frames ->
  frame_of H bad wh = inl e ->
  compose H (before ++ bad :: after) wh k =
  (flat_map (fun fr => repeat fr k) frames, Some e).
Proof.
  intros Hbefore Hbad.
  induction Hbefore as [ | img fr before frames Hfr _ IH]; cbn.
  - now rewrite Hbad.
  - now rewrite Hfr, IH.
Qed.

(** X7.  If the writer does not open, [images_to_video] raises its
    [RuntimeError] right after constructing it: no page is resized, no frame
    is written, the writing loop and its progress bar never start, and the
    writer is left as constructed, not released. *)
Theorem writer_not_opened_raises :
  forall (H : Host) (self : PDFToMP4Converter) (first_img : Image)
         (rest : list Image) (w : World),
    isOpened H (Pathlib.str (output_path self)) (VideoWriter_fourcc "m" "p" "4" "v")
             (fps self) (target_size first_img) = inr false ->
    exists w' s,
      images_to_video H self (first_img :: rest) w =
        (Raise Py.RuntimeError_cannot_create, w') /\
      sink w' = Some s /\
      vs_path s = Pathlib.str (output_path self) /\
      vs_frames s = [] /\
      vs_released s = false /\
      pbar w' = pbar w /\
      stdout w' = stdout w ++ [MsgCreating (Pathlib.str (output_path self))].
Proof.
  intros H self first_img rest w Hwriter.
  rewrite images_to_video_spec. cbv zeta. rewrite Hwriter.
  eexists; eexists. repeat (split; [reflexivity | ]). reflexivity.
Qed.

Lemma writer_not_opened_raises_witness :
  exists w',
    images_to_video no_writer_host
                    (converter_of no_writer_host (demo_argv None None))
                    [demo_page 0; demo_page 1] initial_world =
      (Raise Py.RuntimeError_cannot_create, w') /\
    pbar w' = None.
Proof.
  destruct (writer_not_opened_raises no_writer_host
              (converter_of no_writer_host (demo_argv None None))
              (demo_page 0) [demo_page 1] initial_world)
    as (w' & s & Hrun & _ & _ & _ & _ & Hbar & _).
  - reflexivity.
  - exists w'. auto.
Defined.

(** X8.  If a page cannot be resized, the frames of the pages before it
    have already been written, each repeated the full count, and stay in the
    file: [images_to_video] raises the exception with the writer still open
    and not released, and the progress bar, closed by its [with] block,
    counts exactly the frames written. *)
Theorem failure_while_writing_keeps_earlier_frames :
  forall (H : Host) (self : PDFToMP4Converter) (first_img : Image)
         (rest before after : list Image) (bad : Image)
         (frames : list Array) (e : Py.exn) (k : Z) (w : World),
    first_img :: rest = before ++ bad :: after ->
    isOpened H (Pathlib.str (output_path self)) (VideoWriter_fourcc "m" "p" "4" "v")
             (fps self) (target_size first_img) = inr true ->
    frames_per_page_of self = inr k ->
    Forall2 (fun img fr => frame_of H img (target_size first_img) = inr fr)
            before frames ->
    frame_of H bad (target_size first_img) = inl e ->
    exists w' s,
      images_to_video H self (first_img :: rest) w = (Raise e, w') /\
      sink w' = Some s /\
      vs_frames s = flat_map (fun fr => repeat fr (Z.to_nat k)) frames /\
      List.length (vs_frames s) = (List.length before * Z.to_nat k)%nat /\
      vs_opened s = true /\
      vs_released s = false /\
      pbar w' = Some (Build_Pbar (Z.of_nat (List.length (first_img :: rest)) * k)
                                 (Z.of_nat (List.length (vs_frames s))) true).
Proof.
  intros H self first_img rest before after bad frames e k w
         Himages Hwriter Hfpp Hbefore Hbad.
  rewrite images_to_video_spec. cbv zeta.
  rewrite Hwriter, Hfpp, Himages.
  rewrite (compose_failure H _ _ e before bad after frames Hbefore Hbad).
  cbn [fst snd]. rewrite <- Himages.
  eexists; eexists. split; [reflexivity | ].
  cbn [sink sink_of vs_frames vs_opened vs_released pbar].
  split; [reflexivity | ]. split; [reflexivity | ].
  split; [unfold sink_of; cbn [vs_frames];
          now rewrite flat_map_repeat_length, (Forall2_length Hbefore) | ].
  repeat (split; [reflexivity | ]). reflexivity.
Qed.

Lemma failure_while_writing_keeps_earlier_frames_witness :
  exists w' s,
    images_to_video broken_resize_host
                    (converter_of broken_resize_host (demo_argv None None))
                    [demo_page 0; demo_page 1] initial_world =
      (Raise (Py.LibraryError 9), w') /\
    sink w' = Some s /\
    vs_frames s = repeat (demo_frame 0) 15.
Proof.
  destruct (failure_while_writing_keeps_earlier_frames broken_resize_host
              (converter_of broken_resize_host (demo_argv None None))
              (demo_page 0) [demo_page 1] [demo_page 0] [] (demo_page 1)
              [demo_frame 0] (Py.LibraryError 9) 15 initial_world)
    as (w' & s & Hrun & Hsink & Hframes & _).
  - reflexivity.
  - reflexivity.
  - vm_compute. reflexivity.
  - repeat constructor.
  - reflexivity.
  - exists w', s. repeat split; assumption.
Defined.

Lemma float_of_int_error z e :
  Py.float_of_int z = inl e -> e = Py.OverflowError_int_too_large.
Proof.
  unfold Py.float_of_int.
  destruct (binary_normalize Py.prec Py.emax z 0 false); congruence.
Qed.

Lemma mul_error a b e :
  Py.mul a b = inl e -> e = Py.OverflowError_int_too_large.
Proof.
  destruct a as [x | f], b as [y | g]; cbn; try discriminate.
  - destruct (Py.float_of_int x) eqn:Hx; [ | discriminate].
    intros [= <-]. eauto using float_of_int_error.
  - destruct (Py.float_of_int y) eqn:Hy; [ | discriminate].
    intros [= <-]. eauto using float_of_int_error.
Qed.

(** X9.  The repeat count is computed after the writer is constructed.  If
    [int(fps * duration_per_page)] raises, which it does only with one of
    the three errors of number conversion (an [int] too large for a float,
    an infinite product, a NaN product), [images_to_video] raises it and
    leaves an open, unreleased writer with no frame. *)
Theorem repeat_count_error_leaves_empty_writer :
  forall (H : Host) (self : PDFToMP4Converter) (first_img : Image)
         (rest : list Image) (w : World) (e : Py.exn),
    isOpened H (Pathlib.str (output_path self)) (VideoWriter_fourcc "m" "p" "4" "v")
             (fps self) (target_size first_img) = inr true ->
    frames_per_page_of self = inl e ->
    (e = Py.OverflowError_int_too_large \/
     e = Py.OverflowError_float_infinity \/
     e = Py.ValueError_float_nan) /\
    exists w' s,
      images_to_video H self (first_img :: rest) w = (Raise e, w') /\
      sink w' = Some s /\
      vs_frames s = [] /\
      vs_opened s = true /\
      vs_released s = false.
Proof.
  intros H self first_img rest w e Hwriter Hfpp. split.
  - unfold frames_per_page_of in Hfpp.
    destruct (Py.mul (fps self) (duration_per_page self)) as [e' | p] eqn:Hmul.
    + injection Hfpp as <-. left. eauto using mul_error.
    + unfold Py.int in Hfpp. right.
      destruct (Py.value p); try discriminate; injection Hfpp as <-; auto.
  - rewrite images_to_video_spec. cbv zeta. rewrite Hwriter, Hfpp.
    eexists; eexists. repeat (split; [reflexivity | ]). reflexivity.
Qed.

Lemma repeat_count_error_leaves_empty_writer_witness :
  exists w',
    images_to_video demo_host
                    (converter_of demo_host (demo_argv (Some Py.float_1e308) None))
                    [demo_page 0; demo_page 1] initial_world =
      (Raise Py.OverflowError_float_infinity, w').
Proof.
  destruct (repeat_count_error_leaves_empty_writer demo_host
              (converter_of demo_host (demo_argv (Some Py.float_1e308) None))
              (demo_page 0) [demo_page 1] initial_world
              Py.OverflowError_float_infinity)
    as (_ & w' & s & Hrun & _).
  - reflexivity.
  - vm_compute. reflexivity.
  - exists w'. exact Hrun.
Defined.

Lemma compose_complete_length (H : Host) wh k images :
  snd (compose H images wh k) = None ->
  List.length (fst (compose H images wh k)) = (List.length images * k)%nat.
Proof.
  induction images as [ | img rest IH]; cbn; [reflexivity | ].
  destruct (frame_of H img wh) as [e | img_bgr]; cbn; [discriminate | ].
  destruct (compose H rest wh k) as [fs r]; cbn in *.
  intros Hr. now rewrite length_app, repeat_length, IH.
Qed.

(** X10.  Whenever [images_to_video] returns normally, the video holds
    [len(images)] times the repeat count frames, none if the count is
    negative, and the closed progress bar has counted each of them; its
    total, [len(images) * frames_per_page], is reached exactly when the
    count is not negative. *)
Theorem frames_and_progress_when_video_written :
  forall (H : Host) (self : PDFToMP4Converter) (images : list Image)
         (w w' : World) (k : Z),
    images_to_video H self images w = (Ok tt, w') ->
    frames_per_page_of self = inr k ->
    exists s,
      sink w' = Some s /\
      vs_released s = true /\
      List.length (vs_frames s) = (List.length images * Z.to_nat k)%nat /\
      pbar w' = Some (Build_Pbar (Z.of_nat (List.length images) * k)
                                 (Z.of_nat (List.length (vs_frames s))) true) /\
      (0 <= k ->
       Z.of_nat (List.length (vs_frames s)) = Z.of_nat (List.length images) * k).
Proof.
  intros H self images w w' k Hrun Hfpp.
  destruct images as [ | first_img rest]; [discriminate | ].
  rewrite images_to_video_spec in Hrun. cbv zeta in Hrun.
  rewrite Hfpp in Hrun.
  destruct (isOpened H _ _ _ _) as [e | [ | ]]; try discriminate Hrun.
  destruct (snd (compose H _ _ _)) eqn:Hdone; [discriminate | ].
  apply (f_equal snd) in Hrun. cbn [snd] in Hrun. subst w'.
  apply compose_complete_length in Hdone.
  eexists. split; [reflexivity | ]. unfold sink_of; cbn [vs_released vs_frames pbar].
  split; [reflexivity | ]. split; [exact Hdone | ]. split; [reflexivity | ].
  intros Hk. rewrite Hdone, Nat2Z.inj_mul, Z2Nat.id by exact Hk. reflexivity.
Qed.

Lemma frames_and_progress_when_video_written_witness :
  exists s,
    sink (snd (images_to_video demo_host
                 (converter_of demo_host (demo_argv None None))
                 [demo_page 0; demo_page 1] initial_world)) = Some s /\
    List.length (vs_frames s) = 30%nat.
Proof.
  destruct (frames_and_progress_when_video_written demo_host
              (converter_of demo_host (demo_argv None None))
              [demo_page 0; demo_page 1] initial_world
              (snd (images_to_video demo_host
                      (converter_of demo_host (demo_argv None None))
                      [demo_page 0; demo_page 1] initial_world)) 15)
    as (s & Hsink & _ & Hlen & _).
  - vm_compute. reflexivity.
  - vm_compute. reflexivity.
  - exists s. auto.
Defined.

(** X11.  With fps > 0 and duration_per_page > 0 the repeat count, when it
    can be computed, is never negative (it may be 0). *)
Theorem repeat_count_not_negative :
  forall (self : PDFToMP4Converter) (k : Z),
    Py.is_positive (fps self) = true ->
    Py.is_positive (duration_per_page self) = true ->
    frames_per_page_of self = inr k ->
    0 <= k.
Proof.
  intros self k Hfps Hdur. unfold frames_per_page_of.
  destruct (Py.mul (fps self) (duration_per_page self)) as [e | p] eqn:Hmul;
    [discriminate | ].
  assert (Hp : Py.nonneg p).
  { apply (mul_nonneg (fps self) (duration_per_page self) p);
      auto using is_positive_nonneg. }
  unfold Py.int.
  destruct (Py.value p) as [ | | q | ] eqn:Hv; try discriminate.
  intros [= <-].
  pose proof (nonneg_value p q Hp Hv) as Hq.
  unfold Py.Qtrunc. apply Z.quot_pos; lia.
Qed.

Lemma repeat_count_not_negative_witness : 0 <= 15.
Proof.
  apply (repeat_count_not_negative
           (converter_of demo_host (demo_argv None None)) 15).
  - reflexivity.
  - reflexivity.
  - vm_compute. reflexivity.
Defined.

(** X12.  The frame size is never larger than the first page and at most
    one pixel smaller on each side; an even side is kept as it is, and no
    side of a page of non-negative size becomes negative (a side of one
    pixel becomes 0). *)
Theorem target_size_within_one_pixel :
  forall (first_img : Image),
    fst (size first_img) - 1 <= fst (target_size first_img) <= fst (size first_img) /\
    snd (size first_img) - 1 <= snd (target_size first_img) <= snd (size first_img) /\
    (Z.even (fst (size first_img)) = true ->
     fst (target_size first_img) = fst (size first_img)) /\
    (Z.even (snd (size first_img)) = true ->
     snd (target_size first_img) = snd (size first_img)) /\
    (0 <= fst (size first_img) -> 0 <= fst (target_size first_img)) /\
    (0 <= snd (size first_img) -> 0 <= snd (target_size first_img)).
Proof.
  intros first_img. unfold target_size.
  destruct (size first_img) as [width height]. cbn [fst snd].
  assert (Hdown : forall x, even_down x = if Z.odd x then x - 1 else x).
  { intros x. unfold even_down. rewrite Zmod_odd. now destruct (Z.odd x). }
  assert (Hnonneg : forall x, 0 <= x -> 0 <= even_down x).
  { intros x Hx. rewrite Hdown. destruct (Z.odd x) eqn:Hodd; [ | exact Hx].
    assert (x <> 0) by (intros ->; discriminate). lia. }
  rewrite !Hdown.
  repeat split; try (destruct (Z.odd _); lia);
    try (intros Hev; rewrite <- Z.negb_even, Hev; reflexivity);
    try (intros Hx; rewrite <- Hdown; now apply Hnonneg).
Qed.

(** ** The default output path *)

Lemma split_free c s : Forall (free_of c) (Pathlib.split c s).
Proof.
  induction s as [ | a s IH]; cbn.
  - constructor; [intros [] | constructor].
  - destruct (Ascii.eqb a c) eqn:Hac.
    + constructor; [intros [] | exact IH].
    + apply Ascii.eqb_neq in Hac.
      destruct (Pathlib.split c s) as [ | x xs].
      * constructor; [ | constructor]. intros [-> | []]. now apply Hac.
      * inversion IH as [ | ? ? Hx Hxs]; subst.
        constructor; [ | exact Hxs].
        intros [-> | Hin]; [now apply Hac | now apply Hx].
Qed.

Lemma split_free_id c s : free_of c s -> Pathlib.split c s = [s].
Proof.
  induction s as [ | a s IH]; cbn; intros Hfree; [reflexivity | ].
  destruct (Ascii.eqb a c) eqn:Hac.
  - apply Ascii.eqb_eq in Hac. subst. exfalso. apply Hfree. now left.
  - rewrite IH; [reflexivity | ]. intros Hin. apply Hfree. now right.
Qed.

Lemma lstrip_slash_free s :
  free_of "/"%char s -> Pathlib.lstrip_slash s = (0%nat, s).
Proof.
  destruct s as [ | a s]; cbn; intros Hfree; [reflexivity | ].
  destruct (Ascii.eqb a "/"%char) eqn:Ha; [ | reflexivity].
  apply Ascii.eqb_eq in Ha. subst. exfalso. apply Hfree. now left.
Qed.

(** A string without slash, not empty and not a dot, is one component. *)
Lemma of_string_component x :
  free_of "/"%char x -> x <> EmptyString -> x <> "."%string ->
  Pathlib.of_string x = {| Pathlib.root := ""; Pathlib.parts := [x] |}.
Proof.
  intros Hfree Hne Hdot. unfold Pathlib.of_string.
  rewrite (lstrip_slash_free x Hfree), (split_free_id _ x Hfree). cbn [filter].
  unfold Pathlib.is_component.
  apply String.eqb_neq in Hne, Hdot. now rewrite Hne, Hdot.
Qed.

Lemma substring_free c s : forall n m,
  free_of c s -> free_of c (substring n m s).
Proof.
  induction s as [ | a s IH]; intros n m Hfree.
  - destruct n, m; cbn; solve [exact Hfree | intros []].
  - destruct n as [ | n].
    + destruct m as [ | m]; cbn; [intros [] | ].
      intros [-> | Hin]; [apply Hfree; now left | ].
      apply (IH 0%nat m); [ | exact Hin]. intros Hs. apply Hfree. now right.
    + cbn. apply IH. intros Hs. apply Hfree. now right.
Qed.

Lemma append_free c a b :
  free_of c a -> free_of c b -> free_of c (a ++ b)%string.
Proof.
  induction a as [ | x a IH]; cbn; intros Ha Hb; [exact Hb | ].
  intros [-> | Hin]; [apply Ha; now left | ].
  apply IH; [ | exact Hb | exact Hin]. intros Hs. apply Ha. now right.
Qed.

Lemma last_Forall {A} (P : A -> Prop) l d : Forall P l -> P d -> P (last l d).
Proof.
  induction 1 as [ | x l Hx Hl IH]; cbn; intros Hd; [exact Hd | ].
  destruct l; [exact Hx | now apply IH].
Qed.

Lemma Forall_filter {A} (P : A -> Prop) f l : Forall P l -> Forall P (filter f l).
Proof.
  induction 1 as [ | x l Hx Hl IH]; cbn; [constructor | ].
  destruct (f x); [constructor | ]; assumption.
Qed.

(** The stem of a parsed path holds no slash. *)
Lemma stem_free s : free_of "/"%char (Pathlib.stem (Pathlib.of_string s)).
Proof.
  assert (Hname : free_of "/"%char (Pathlib.name (Pathlib.of_string s))).
  { unfold Pathlib.name, Pathlib.of_string.
    destruct (Pathlib.lstrip_slash s) as [k remaining]. cbn [Pathlib.parts].
    apply last_Forall; [ | intros []].
    apply Forall_filter, split_free. }
  unfold Pathlib.stem.
  destruct (Pathlib.rfind _ _) as [i | ]; [ | exact Hname].
  destruct (_ && _)%bool; [ | exact Hname].
  now apply substring_free.
Qed.

(** X13.  Without an output path (none given, or the empty string), the
    output file lies directly in the current working directory, whatever the
    directory of the PDF: its path is the working directory followed by the
    single component [<stem of the PDF name>.mp4]. *)
Theorem default_output_directly_in_cwd :
  forall (H : Host) (pdf : string) (out : option string)
         (duration fps_arg : option Py.num) (w w' : World)
         (self : PDFToMP4Converter),
    __init__ H pdf out duration fps_arg w = (Ok self, w') ->
    truthy out = false ->
    output_path self =
      {| Pathlib.root := Pathlib.root (cwd H);
         Pathlib.parts := Pathlib.parts (cwd H) ++
                          [(Pathlib.stem (Pathlib.of_string pdf) ++ ".mp4")%string] |} /\
    Pathlib.name (output_path self) =
      (Pathlib.stem (Pathlib.of_string pdf) ++ ".mp4")%string.
Proof.
  intros H pdf out duration fps_arg w w' self Hinit Hout.
  unfold __init__ in Hinit. rewrite Hout in Hinit.
  destruct (negb (exists_ H _)); [discriminate | ].
  apply (f_equal fst) in Hinit. cbn [fst] in Hinit.
  assert (Hself : output_path self =
                  Pathlib.joinpath (cwd H)
                    (Pathlib.stem (Pathlib.of_string pdf) ++ ".mp4")%string)
    by (injection Hinit as <-; reflexivity).
  clear Hinit.
  assert (Hpath : output_path self =
            {| Pathlib.root := Pathlib.root (cwd H);
               Pathlib.parts := Pathlib.parts (cwd H) ++
                 [(Pathlib.stem (Pathlib.of_string pdf) ++ ".mp4")%string] |}).
  { rewrite Hself. unfold Pathlib.joinpath.
    rewrite of_string_component; [reflexivity | | | ].
    - apply append_free; [apply stem_free | ].
      cbn. intros Hin. repeat destruct Hin as [Hin | Hin]; try discriminate; exact Hin.
    - destruct (Pathlib.stem _); discriminate.
    - destruct (Pathlib.stem _) as [ | a [ | b x]]; discriminate. }
  split; [exact Hpath | ].
  rewrite Hpath. unfold Pathlib.name. cbn [Pathlib.parts]. apply last_last.
Qed.

Lemma default_output_directly_in_cwd_witness :
  exists self,
    __init__ demo_host "talk/slides.pdf" (Some EmptyString) None None initial_world
      = (Ok self, initial_world) /\
    Pathlib.str (output_path self) = "/home/user/slides.mp4"%string.
Proof.
  eexists. split; [reflexivity | ].
  destruct (default_output_directly_in_cwd demo_host "talk/slides.pdf"
              (Some EmptyString) None None initial_world initial_world _
              eq_refl eq_refl) as [Hpath _].
  rewrite Hpath. reflexivity.
Defined.

(** ** The document across a whole run *)

(** X14.  A run leaves the document open only when a page failed to
    render: either as many documents are open afterwards as before, or one
    more is, and then the run ended with status 1 before any writer was
    constructed.  In particular the document is closed before the video is
    written. *)
Theorem document_left_open_only_by_render_failure :
  forall (H : Host) (argv : Argv) (w : World),
    open_docs (snd (run H argv w)) = open_docs w \/
    (open_docs (snd (run H argv w)) = S (open_docs w) /\
     fst (run H argv w) = 1 /\
     sink (snd (run H argv w)) = sink w /\
     exists doc e,
       fitz_open H (Pathlib.str (Pathlib.of_string (opt_pdf_file argv))) = inr doc /\
       render_all H doc (args_dpi (parse_args argv)) (seq 0 (len doc)) = inl e).
Proof.
  intros H argv w. unfold run.
  change (Pathlib.of_string (opt_pdf_file argv))
    with (pdf_path (converter_of H argv)).
  main_leaves H argv; cbn [fst snd exit_status open_docs sink];
    try (left; reflexivity).
  right. repeat (split; [reflexivity | ]). eauto.
Qed.
